(** * CogniFlow-AI: the browser-side adapter and metrics store

    A shallow embedding of the service module that the UI components
    import as ['../services/api'] (the last part of
    [ui/src/components/KPICards.tsx], from [import axios] on: wire types,
    metrics store, adapter) and of [handleSendMessage] in
    [ui/src/components/ChatbotSection.tsx], the call site of its chat
    entry point.  The second half of the definitions adds the callers:
    the handlers of the analysis panel
    ([ui/src/components/EmotionAnalysisSection.tsx]) with the wording and
    the file name of its report, and the account handlers of
    [ui/src/App.tsx] with the token store of the service module.

    Conventions of the embedding.
    - A [number] is a finite double.  Every finite double is a rational,
      so a [number] is a [Q]; a [number] that holds an integer (the
      result of [Math.round], a sum or difference of such) is a [Z].
      [NaN] and the infinities are not numbers of the model.  The
      comparisons, [Math.round], [Math.max], [Math.min] and the sums of
      whole numbers below 2^53 are exact on doubles, and are computed
      exactly.  A product or a quotient is not: [x * 100] in the analysis
      path and the quotient of [getDashboardMetrics] are rounded to the
      nearest double ([binary64], checked against the machine's doubles
      in [binary64_ieee]); the product by [0.6] in
      [buildEmotionBreakdown], whose argument ranges over 76 integers, is
      computed exactly and checked against the binary64 product on all of
      them ([breakdownSecondary_ieee]).
    - [Math.round] rounds to the nearest integer, halves toward plus
      infinity: [floor (x + 1/2)].
    - A string is a [string], read as UTF-8.
    - An [async] function runs on the event loop until it returns or
      throws; it is a function in a state-and-exception monad over the
      browser's storage, the events sent to [window] and the log of the
      HTTP requests issued. *)

From Stdlib Require Import ZArith NArith QArith Qround Qabs Qpower.
From Stdlib Require Import Ascii String List Lia Lqa.
From Stdlib Require Import Floats Uint63.
From stdpp Require Import base option gmap strings.
Import ListNotations.

Local Open Scope string_scope.
Local Open Scope list_scope.
Local Open Scope Z_scope.

(** ** Numbers *)

Module Math.

(** [Math.round(x)] *)
Definition round (x : Q) : Z := Qfloor (x + (1 # 2)).

(** [Math.max(a, b)] and [Math.min(a, b)] on integer-valued numbers *)
Definition max (a b : Z) : Z := Z.max a b.
Definition min (a b : Z) : Z := Z.min a b.

End Math.

(** [a >= b] on numbers *)
Definition num_ge (a b : Q) : bool := Qle_bool b a.

(** *** Rounding to a double

    The result of [a * b] and of [a / b] is the double nearest to the
    exact product or quotient, a tie going to the double whose last bit
    is 0.  A double has 53 significant bits, and its last place is never
    finer than 2^-1074.  Overflow to an infinity is not modelled. *)

(** [floor (log2 q)] for a positive [q]. *)
Definition floorLog2 (q : Q) : Z :=
  if Qle_bool 1 q then Z.log2 (Qfloor q)
  else - Z.log2_up (Qceiling (/ q)).

(** The nearest integer, a tie going to the even one. *)
Definition roundHalfEven (r : Q) : Z :=
  let f := Qfloor r in
  match Qcompare (r - inject_Z f) (1 # 2) with
  | Lt => f
  | Gt => f + 1
  | Eq => if Z.even f then f else f + 1
  end.

(** The exponent of the last place of the doubles around [q]. *)
Definition ulpExponent (q : Q) : Z :=
  Z.max (-1074) (floorLog2 (Qabs q) - 52).

(** The double nearest to [q]. *)
Definition binary64 (q : Q) : Q :=
  let e := ulpExponent q in
  Qred (inject_Z (roundHalfEven (q / 2 ^ e)) * 2 ^ e)%Q.

(** [a * b] and [a / b] on numbers *)
Definition num_mul (a b : Q) : Q := binary64 (a * b).
Definition num_div (a b : Q) : Q := binary64 (a / b).

(** ** Pure helpers of the analysis path *)

(** [inferIntensity] *)
Definition inferIntensity (confidencePercent : Q) : string :=
  if num_ge confidencePercent 80 then "High"
  else if num_ge confidencePercent 60 then "Medium"
  else "Low".

Record EmotionEntry := mkEmotionEntry
  { name : string; value : Z; color : string }.

(** The three percentages computed by [buildEmotionBreakdown], in the
    order [dominant], [secondary], [tertiary]. *)
Definition breakdownDominant (confidencePercent : Q) : Z :=
  Math.max 20 (Math.min 95 (Math.round confidencePercent)).

Definition breakdownSecondary (dominant : Z) : Z :=
  Math.max 5 (Math.round (inject_Z (100 - dominant) * 0.6)).

Definition breakdownTertiary (dominant secondary : Z) : Z :=
  Math.max 5 (100 - dominant - secondary).

(** [buildEmotionBreakdown] *)
Definition buildEmotionBreakdown (dominantMood : string) (confidencePercent : Q)
  : list EmotionEntry :=
  let dominant := breakdownDominant confidencePercent in
  let secondary := breakdownSecondary dominant in
  let tertiary := breakdownTertiary dominant secondary in
  [ {| name := dominantMood; value := dominant; color := "#3b82f6" |};
    {| name := "Secondary"; value := secondary; color := "#8b5cf6" |};
    {| name := "Residual"; value := tertiary; color := "#22c55e" |} ].

(** *** The same product on binary64

    [0.6] is not a double; the literal denotes the nearest one, and the
    product is rounded to the nearest double before [Math.round] sees
    it. *)

(** The rational a finite double stands for. *)
Definition double_value (x : float) : option Q :=
  match Prim2SF x with
  | S754_zero _ => Some 0%Q
  | S754_finite negative m e =>
      Some ((if negative then -1 else 1) * inject_Z (Zpos m) * Qpower 2 e)%Q
  | S754_infinity _ | S754_nan => None
  end.

(** The double of a small non-negative integer. *)
Definition double_of_Z (n : Z) : float := PrimFloat.of_uint63 (Uint63.of_Z n).

#[local] Set Warnings "-inexact-float".

(** [Math.max(5, Math.round((100 - dominant) * 0.6))], the product and
    the difference taken in binary64. *)
Definition breakdownSecondary_binary64 (dominant : Z) : option Z :=
  option_map (fun product => Math.max 5 (Math.round product))
    (double_value (PrimFloat.mul (PrimFloat.sub 100 (double_of_Z dominant)) 0.6)).

#[local] Set Warnings "+inexact-float".

Definition secondary_agrees (dominant : Z) : bool :=
  match breakdownSecondary_binary64 dominant with
  | Some secondary => secondary =? breakdownSecondary dominant
  | None => false
  end.

(** *** [binary64] against the doubles of the machine *)

(** The double [x] is the double nearest to [q]. *)
Definition nearest_double (x : float) (q : Q) : bool :=
  match double_value x with
  | Some v => Qeq_bool v (binary64 q)
  | None => false
  end.

(** For the double [x] nearest to [k / 1000]: the division that made it,
    and its product by 100. *)
Definition percent_agrees (k : Z) : bool :=
  let x := PrimFloat.div (double_of_Z k) (double_of_Z 1000) in
  match double_value x with
  | Some v =>
      nearest_double x (inject_Z k / 1000)
      && nearest_double (PrimFloat.mul x (double_of_Z 100)) (v * 100)
  | None => false
  end.

(** The quotient of a sum of percentages by a count. *)
Definition quotient_agrees (sum count : Z) : bool :=
  nearest_double (PrimFloat.div (double_of_Z sum) (double_of_Z count))
    (inject_Z sum / inject_Z count).

(** The words of the specification: [clamp(x, lo, hi)]. *)
Definition clamp (x lo hi : Z) : Z :=
  if x <? lo then lo else if hi <? x then hi else x.

(** Sum of the percentages of a breakdown. *)
Definition totalPercentage (es : list EmotionEntry) : Z :=
  fold_right (fun e acc => value e + acc) 0 es.

(** ** Strings

    A string is kept as its UTF-8 bytes (what a string literal of this
    file is).  [String.prototype.trim] removes the ECMAScript WhiteSpace
    and LineTerminator code points from both ends; in UTF-8 they are the
    byte sequences recognised below. *)

Definition byte_in (a : ascii) (codes : list N) : bool :=
  existsb (N.eqb (N_of_ascii a)) codes.

(** TAB, LF, VT, FF, CR, SPACE *)
Definition whiteSpace1 (a : ascii) : bool :=
  byte_in a [9; 10; 11; 12; 13; 32]%N.

(** U+00A0 NO-BREAK SPACE *)
Definition whiteSpace2 (a b : ascii) : bool :=
  byte_in a [194]%N && byte_in b [160]%N.

(** U+1680, U+2000..U+200A, U+2028, U+2029, U+202F, U+205F, U+3000 and
    U+FEFF *)
Definition whiteSpace3 (a b c : ascii) : bool :=
  let x := N_of_ascii a in
  let y := N_of_ascii b in
  let z := N_of_ascii c in
  ((x =? 225) && (y =? 154) && (z =? 128)
   || (x =? 226) && (y =? 128)
      && ((128 <=? z) && (z <=? 138) || (z =? 168) || (z =? 169) || (z =? 175))
   || (x =? 226) && (y =? 129) && (z =? 159)
   || (x =? 227) && (y =? 128) && (z =? 128)
   || (x =? 239) && (y =? 187) && (z =? 191))%N.

Fixpoint trimStart (s : string) : string :=
  match s with
  | String a rest1 =>
      if whiteSpace1 a then trimStart rest1
      else match rest1 with
           | String b rest2 =>
               if whiteSpace2 a b then trimStart rest2
               else match rest2 with
                    | String c rest3 =>
                        if whiteSpace3 a b c then trimStart rest3 else s
                    | EmptyString => s
                    end
           | EmptyString => s
           end
  | EmptyString => s
  end.

Definition reverse_string (s : string) : string :=
  string_of_list_ascii (rev (list_ascii_of_string s)).

(** [trimStart] on the mirrored string: the multi-byte sequences are
    met last byte first. *)
Fixpoint trimEndRev (s : string) : string :=
  match s with
  | String c rest1 =>
      if whiteSpace1 c then trimEndRev rest1
      else match rest1 with
           | String b rest2 =>
               if whiteSpace2 b c then trimEndRev rest2
               else match rest2 with
                    | String a rest3 =>
                        if whiteSpace3 a b c then trimEndRev rest3 else s
                    | EmptyString => s
                    end
           | EmptyString => s
           end
  | EmptyString => s
  end.

Definition trimEnd (s : string) : string :=
  reverse_string (trimEndRev (reverse_string s)).

(** [s.trim()] *)
Definition trim (s : string) : string := trimEnd (trimStart s).

(** Truthiness of a string: only the empty string is falsy. *)
Definition truthy (s : string) : bool :=
  match s with EmptyString => false | _ => true end.

(** ** Values read out of an object literal

    An object literal inherits from [Object.prototype]; a property read
    [obj[key]] that finds no own property walks the prototype chain.  The
    members of [Object.prototype] (ECMA-262, 20.1.3 and B.2.2) are
    functions, and the prototype itself for [__proto__]: none is
    [undefined] or [null]. *)

Definition ObjectPrototype : gset string :=
  {[ "constructor"; "hasOwnProperty"; "isPrototypeOf";
     "propertyIsEnumerable"; "toLocaleString"; "toString"; "valueOf";
     "__proto__"; "__defineGetter__"; "__defineSetter__";
     "__lookupGetter__"; "__lookupSetter__" ]}.

Inductive JsValue :=
| Num (n : Z)                (* a number holding an integer *)
| Inherited (key : string).  (* the member [key] of [Object.prototype] *)

(** [obj[key]] for an object literal with the own properties [own];
    [None] is [undefined]. *)
Definition getProperty (own : gmap string Z) (key : string) : option JsValue :=
  match own !! key with
  | Some n => Some (Num n)
  | None => if decide (key ∈ ObjectPrototype) then Some (Inherited key) else None
  end.

(** [a ?? b] *)
Definition nullish {A} (a : option A) (b : A) : A :=
  match a with Some x => x | None => b end.

Record ArcEntry := mkArcEntry
  { arc_start : Q; arc_end : Q; mood : string }.

Definition moodToValue : gmap string Z :=
  {[ "intense" := 95; "energetic" := 85; "dramatic" := 80;
     "dark" := 70; "calm" := 40; "neutral" := 50 ]}.

(** [mapAudioArcToIntensitySeries] *)
Definition mapAudioArcToIntensitySeries (arc : list ArcEntry) : list JsValue :=
  map (fun entry => nullish (getProperty moodToValue (mood entry)) (Num 50)) arc.

(** ** Wire types *)

Inductive ChatMode := ModeGeneral | ModePdf.
Inductive ResponseMode := Strict | Solve.
Inductive ChatProvider := ProviderLocal | ProviderExternal.
Inductive LlmType := LlmLocal | LlmApi.
Inductive AnalyzeType := TypeVideo | TypeScript | TypePdf.

(** An optional member ([api_key?: string]) is an [option]; [None] is
    [undefined], which the JSON encoding of a request body leaves out. *)

Module ChatPayload.
Record t := mk
  { question : string; mode : ChatMode; response_mode : ResponseMode;
    provider : ChatProvider; api_key : option string }.
End ChatPayload.

Module ChatResponse.
Record t := mk { response : string }.
End ChatResponse.

Module BackendChatRequest.
Record t := mk
  { message : string; llm_type : LlmType; api_key : option string }.
End BackendChatRequest.

Module BackendRagRequest.
Record t := mk
  { question : string; mode : ResponseMode; llm_type : LlmType;
    api_key : option string }.
End BackendRagRequest.

(** An element of [emotional_arc: any[]].  The values [null] and
    [undefined] have no members: [point.confidence] throws on them.  Of
    any other value the member is read: the number the backend sent, or
    [undefined] ([None]) when there is none. *)
Inductive ArcPoint :=
| NullPoint
| Point (confidence : option Q).

Module ScriptAnalysisResponse.
Record t := mk
  { emotion_label : string; dominant_mood : string; confidence : Q;
    emotional_arc : list ArcPoint; emotion_summary : string }.
End ScriptAnalysisResponse.

Module PdfAnalysisResponse.
Record t := mk
  { base : ScriptAnalysisResponse.t; script_preview : option string }.
Definition dominant_mood (r : t) := ScriptAnalysisResponse.dominant_mood (base r).
Definition confidence (r : t) := ScriptAnalysisResponse.confidence (base r).
Definition emotional_arc (r : t) := ScriptAnalysisResponse.emotional_arc (base r).
End PdfAnalysisResponse.

Module EmotionTrack.
Record t := mk { dominant_mood : string; emotional_arc : list ArcEntry }.
End EmotionTrack.

Module VideoUploadResponse.
Record t := mk
  { language_detected : string; confidence : option Q;
    transcript_preview : string;
    audio_emotion : EmotionTrack.t; script_emotion : EmotionTrack.t }.
End VideoUploadResponse.

Module StoredMetrics.
Record t := mk
  { totalConversations : Q; videosProcessed : Q;
    analyzedCount : Q; analyzedConfidenceSum : Q }.
End StoredMetrics.

Module DashboardMetrics.
Record t := mk
  { totalConversations : Q; videosProcessed : Q; aiAccuracyScore : Q }.
End DashboardMetrics.

Module AnalysisResult.
Record t := mk
  { dominantMood : string; intensity : string; confidence : Z;
    emotionalArc : list JsValue; emotions : list EmotionEntry }.
End AnalysisResult.

(** A [File]: its name and what [file.text()] resolves to. *)
Record File := mkFile { file_name : string; file_text : string }.

(** ** The browser around the module *)

(** The text kept under a [localStorage] key, up to what [JSON.parse]
    makes of it.  JSON texts of another shape (arrays, strings, objects
    without the four numeric members) are not modelled. *)
Inductive StoredText :=
| TextEmpty                              (* the empty string *)
| TextMalformed                          (* [JSON.parse] throws on it *)
| TextNull                               (* the JSON text [null] *)
| TextMetrics (m : StoredMetrics.t).     (* an object of four numbers *)

(** One HTTP request handed to [apiClient.post]. *)
Inductive Request :=
| PostChat (body : BackendChatRequest.t)
| PostRagQuery (body : BackendRagRequest.t)
| PostUploadPdf (file : File)
| PostScriptAnalyze (text : string)
| PostScriptUploadPdf (file : File)
| PostVideoUpload (file : File)
| PostVideoYoutube (url : string).

Record World := mkWorld
  { localStorage : gmap string StoredText;
    requests : list Request;         (* oldest first *)
    dispatched : list string }.      (* events sent to [window], oldest first *)

Inductive Exn :=
| Error (message : string)
| SyntaxError
| TypeError
| AxiosError.

Inductive Outcome (A : Type) :=
| Returned (a : A)
| Thrown (e : Exn).
Arguments Returned {A} a.
Arguments Thrown {A} e.

(** The remote service: for each endpoint, the response body to a request
    given the requests seen before it, or [None] when the call fails
    (network error, non-2xx status). *)
Record Backend := mkBackend
  { chat : list Request -> BackendChatRequest.t -> option ChatResponse.t;
    rag_query : list Request -> BackendRagRequest.t -> option string;
    upload_pdf : list Request -> File -> option unit;
    script_analyze : list Request -> string -> option ScriptAnalysisResponse.t;
    script_upload_pdf : list Request -> File -> option PdfAnalysisResponse.t;
    video_upload : list Request -> File -> option VideoUploadResponse.t;
    video_youtube : list Request -> string -> option VideoUploadResponse.t }.

(** Computations: state passing over [World], with exceptions. *)
Definition M (A : Type) : Type := World -> Outcome A * World.

Definition ret {A} (a : A) : M A := fun w => (Returned a, w).

Definition throw {A} (e : Exn) : M A := fun w => (Thrown e, w).

Definition bind {A B} (m : M A) (k : A -> M B) : M B :=
  fun w =>
    match m w with
    | (Returned a, w') => k a w'
    | (Thrown e, w') => (Thrown e, w')
    end.

(** [try { body } catch { handler }] *)
Definition try_catch {A} (body : M A) (handler : Exn -> M A) : M A :=
  fun w =>
    match body w with
    | (Returned a, w') => (Returned a, w')
    | (Thrown e, w') => handler e w'
    end.

Declare Scope js_scope.
Delimit Scope js_scope with js.
Notation "x <- m ;; k" := (bind m (fun x => k))
  (at level 100, m at next level, k at level 200, right associativity) : js_scope.
Notation "m ;; k" := (bind m (fun _ => k))
  (at level 100, k at level 200, right associativity) : js_scope.
Local Open Scope js_scope.

Definition localStorage_getItem (key : string) : M (option StoredText) :=
  fun w => (Returned (localStorage w !! key), w).

Definition localStorage_setItem (key : string) (text : StoredText) : M unit :=
  fun w =>
    (Returned tt,
     {| localStorage := <[key := text]> (localStorage w);
        requests := requests w;
        dispatched := dispatched w |}).

Definition window_dispatchEvent (event : string) : M unit :=
  fun w =>
    (Returned tt,
     {| localStorage := localStorage w;
        requests := requests w;
        dispatched := dispatched w ++ [event] |}).

(** [await apiClient.post(...)]: the request goes out, then the promise
    resolves with the response body or rejects. *)
Definition apiClient_post {A} (request : Request)
  (respond : list Request -> option A) : M A :=
  fun w =>
    let w' := {| localStorage := localStorage w;
                 requests := requests w ++ [request];
                 dispatched := dispatched w |} in
    match respond (requests w) with
    | Some data => (Returned data, w')
    | None => (Thrown AxiosError, w')
    end.

(** [!raw] for [raw: string | null] *)
Definition falsy_text (raw : option StoredText) : bool :=
  match raw with
  | None | Some TextEmpty => true
  | Some _ => false
  end.

(** [JSON.parse(raw)]; [None] is the value [null]. *)
Definition JSON_parse (raw : option StoredText) : M (option StoredMetrics.t) :=
  match raw with
  | Some (TextMetrics m) => ret (Some m)
  | Some TextNull | None => ret None
  | Some TextEmpty | Some TextMalformed => throw SyntaxError
  end.

(** [JSON.stringify(next)] *)
Definition JSON_stringify (next : StoredMetrics.t) : StoredText := TextMetrics next.

(** A member access [x.f] through a reference that may be [null]. *)
Definition member {A} (x : option A) : M A :=
  match x with
  | Some a => ret a
  | None => throw TypeError
  end.

(** Truthiness of a number: zero is falsy. *)
Definition truthy_number (x : Q) : bool := negb (Qeq_bool x 0).

(** ** The metrics store *)

Definition METRICS_KEY : string := "cogniflow_metrics".
Definition METRICS_EVENT : string := "cogniflow-metrics-updated".

Definition zeroMetrics : StoredMetrics.t :=
  {| StoredMetrics.totalConversations := 0;
     StoredMetrics.videosProcessed := 0;
     StoredMetrics.analyzedCount := 0;
     StoredMetrics.analyzedConfidenceSum := 0 |}.

(** [readMetrics]: the cast [as StoredMetrics] checks nothing, so the
    result is whatever [JSON.parse] returned. *)
Definition readMetrics : M (option StoredMetrics.t) :=
  try_catch
    (raw <- localStorage_getItem METRICS_KEY;;
     if falsy_text raw then ret (Some zeroMetrics)
     else JSON_parse raw)
    (fun _ => ret (Some zeroMetrics)).

Definition writeMetrics (next : StoredMetrics.t) : M unit :=
  localStorage_setItem METRICS_KEY (JSON_stringify next);;
  window_dispatchEvent METRICS_EVENT.

(** [metrics.totalConversations += 1] *)
Definition withConversation (m : StoredMetrics.t) : StoredMetrics.t :=
  {| StoredMetrics.totalConversations := StoredMetrics.totalConversations m + 1;
     StoredMetrics.videosProcessed := StoredMetrics.videosProcessed m;
     StoredMetrics.analyzedCount := StoredMetrics.analyzedCount m;
     StoredMetrics.analyzedConfidenceSum := StoredMetrics.analyzedConfidenceSum m |}.

(** [metrics.videosProcessed += 1] *)
Definition withVideo (m : StoredMetrics.t) : StoredMetrics.t :=
  {| StoredMetrics.totalConversations := StoredMetrics.totalConversations m;
     StoredMetrics.videosProcessed := StoredMetrics.videosProcessed m + 1;
     StoredMetrics.analyzedCount := StoredMetrics.analyzedCount m;
     StoredMetrics.analyzedConfidenceSum := StoredMetrics.analyzedConfidenceSum m |}.

(** [metrics.analyzedCount += 1; metrics.analyzedConfidenceSum += confidencePercent] *)
Definition withSample (confidencePercent : Q) (m : StoredMetrics.t) : StoredMetrics.t :=
  {| StoredMetrics.totalConversations := StoredMetrics.totalConversations m;
     StoredMetrics.videosProcessed := StoredMetrics.videosProcessed m;
     StoredMetrics.analyzedCount := StoredMetrics.analyzedCount m + 1;
     StoredMetrics.analyzedConfidenceSum :=
       StoredMetrics.analyzedConfidenceSum m + confidencePercent |}.

Definition incrementConversation : M unit :=
  metrics <- readMetrics;;
  m <- member metrics;;
  writeMetrics (withConversation m).

Definition incrementVideos : M unit :=
  metrics <- readMetrics;;
  m <- member metrics;;
  writeMetrics (withVideo m).

Definition addAnalysisConfidence (confidencePercent : Q) : M unit :=
  metrics <- readMetrics;;
  m <- member metrics;;
  writeMetrics (withSample confidencePercent m).

Definition getDashboardMetrics : M DashboardMetrics.t :=
  metrics <- readMetrics;;
  m <- member metrics;;
  let aiAccuracyScore : Q :=
    if truthy_number (StoredMetrics.analyzedCount m)
    then num_div (StoredMetrics.analyzedConfidenceSum m) (StoredMetrics.analyzedCount m)
    else 0%Q in
  ret {| DashboardMetrics.totalConversations := StoredMetrics.totalConversations m;
         DashboardMetrics.videosProcessed := StoredMetrics.videosProcessed m;
         DashboardMetrics.aiAccuracyScore := aiAccuracyScore |}.

(** ** The wire adapter *)

Definition normalizeProvider (provider : ChatProvider) : LlmType :=
  match provider with
  | ProviderExternal => LlmApi
  | ProviderLocal => LlmLocal
  end.

(** The argument of [chatbotApi.sendMessage]. *)
Module SendMessageInput.
Record t := mk
  { message : string; mode : ChatMode; responseMode : ResponseMode;
    provider : ChatProvider; apiKey : option string;
    pdfContext : option File }.
End SendMessageInput.

(** The payload [chatbotApi.sendMessage] hands to [sendChat]. *)
Definition chatPayload (input : SendMessageInput.t) : ChatPayload.t :=
  {| ChatPayload.question := SendMessageInput.message input;
     ChatPayload.mode := SendMessageInput.mode input;
     ChatPayload.response_mode := SendMessageInput.responseMode input;
     ChatPayload.provider := SendMessageInput.provider input;
     ChatPayload.api_key := SendMessageInput.apiKey input |}.

(** [Math.round(x * 100)] for a backend confidence [x] *)
Definition toPercent (x : Q) : Z := Math.round (num_mul x 100).

(** [point.confidence] *)
Definition point_confidence (point : ArcPoint) : M (option Q) :=
  match point with
  | Point confidence => ret confidence
  | NullPoint => throw TypeError
  end.

(** [xs.map(f)] for a callback that may throw: the elements are visited
    in order, and the first exception ends the call. *)
Fixpoint Array_map {A B} (f : A -> M B) (xs : list A) : M (list B) :=
  match xs with
  | [] => ret []
  | x :: rest =>
      y <- f x;;
      ys <- Array_map f rest;;
      ret (y :: ys)
  end.

(** [arc.map((point) => Math.round((point.confidence ?? 0) * 100))] *)
Definition mapScriptArc (arc : list ArcPoint) : M (list JsValue) :=
  Array_map
    (fun point =>
       confidence <- point_confidence point;;
       ret (Num (toPercent (nullish confidence 0%Q))))
    arc.

(** The body [sendChat] builds for the contextual-QA endpoint
    ([const ragRequest]). *)
Definition ragRequest (payload : ChatPayload.t) : BackendRagRequest.t :=
  {| BackendRagRequest.question := ChatPayload.question payload;
     BackendRagRequest.mode := ChatPayload.response_mode payload;
     BackendRagRequest.llm_type := normalizeProvider (ChatPayload.provider payload);
     BackendRagRequest.api_key := ChatPayload.api_key payload |}.

(** The body [sendChat] builds for the chat endpoint
    ([const chatRequest]). *)
Definition chatRequest (payload : ChatPayload.t) : BackendChatRequest.t :=
  {| BackendChatRequest.message := ChatPayload.question payload;
     BackendChatRequest.llm_type := normalizeProvider (ChatPayload.provider payload);
     BackendChatRequest.api_key := ChatPayload.api_key payload |}.

Section Adapter.

Variable backend : Backend.

Definition analyzeScript (text : string) : M ScriptAnalysisResponse.t :=
  apiClient_post (PostScriptAnalyze text)
    (fun seen => script_analyze backend seen text).

Definition uploadVideo (file : File) : M VideoUploadResponse.t :=
  apiClient_post (PostVideoUpload file)
    (fun seen => video_upload backend seen file).

Definition analyzeYouTubeVideo (url : string) : M VideoUploadResponse.t :=
  apiClient_post (PostVideoYoutube url)
    (fun seen => video_youtube backend seen url).

Definition uploadPDF (file : File) : M PdfAnalysisResponse.t :=
  apiClient_post (PostScriptUploadPdf file)
    (fun seen => script_upload_pdf backend seen file).

Definition uploadChatPDF (file : File) : M unit :=
  apiClient_post (PostUploadPdf file)
    (fun seen => upload_pdf backend seen file).

Definition sendChat (payload : ChatPayload.t) : M ChatResponse.t :=
  match ChatPayload.mode payload with
  | ModePdf =>
      answer <- apiClient_post (PostRagQuery (ragRequest payload))
                  (fun seen => rag_query backend seen (ragRequest payload));;
      incrementConversation;;
      ret {| ChatResponse.response := answer |}
  | ModeGeneral =>
      data <- apiClient_post (PostChat (chatRequest payload))
                (fun seen => chat backend seen (chatRequest payload));;
      incrementConversation;;
      ret data
  end.

Definition chatbotApi_sendMessage (input : SendMessageInput.t) : M ChatResponse.t :=
  match SendMessageInput.mode input, SendMessageInput.pdfContext input with
  | ModePdf, Some file => uploadChatPDF file
  | _, _ => ret tt
  end;;
  sendChat (chatPayload input).

(** The result object shared by the video and YouTube paths. *)
Definition videoResult (data : VideoUploadResponse.t) (confidence : Z)
  : AnalysisResult.t :=
  let audio := VideoUploadResponse.audio_emotion data in
  {| AnalysisResult.dominantMood := EmotionTrack.dominant_mood audio;
     AnalysisResult.intensity := inferIntensity (inject_Z confidence);
     AnalysisResult.confidence := confidence;
     AnalysisResult.emotionalArc :=
       mapAudioArcToIntensitySeries (EmotionTrack.emotional_arc audio);
     AnalysisResult.emotions :=
       buildEmotionBreakdown (EmotionTrack.dominant_mood audio)
         (inject_Z confidence) |}.

(** The result object shared by the PDF and script paths;
    [emotionalArc] is what [data.emotional_arc.map(...)] returned. *)
Definition scriptResult (data : ScriptAnalysisResponse.t) (confidence : Z)
  (emotionalArc : list JsValue) : AnalysisResult.t :=
  {| AnalysisResult.dominantMood := ScriptAnalysisResponse.dominant_mood data;
     AnalysisResult.intensity := inferIntensity (inject_Z confidence);
     AnalysisResult.confidence := confidence;
     AnalysisResult.emotionalArc := emotionalArc;
     AnalysisResult.emotions :=
       buildEmotionBreakdown (ScriptAnalysisResponse.dominant_mood data)
         (inject_Z confidence) |}.

Definition emotionApi_analyze (file : File) (type : AnalyzeType)
  : M AnalysisResult.t :=
  match type with
  | TypeVideo =>
      data <- uploadVideo file;;
      let confidence := toPercent (nullish (VideoUploadResponse.confidence data) 0%Q) in
      incrementVideos;;
      addAnalysisConfidence (inject_Z confidence);;
      ret (videoResult data confidence)
  | TypePdf =>
      data <- uploadPDF file;;
      let confidence := toPercent (PdfAnalysisResponse.confidence data) in
      addAnalysisConfidence (inject_Z confidence);;
      emotionalArc <- mapScriptArc (PdfAnalysisResponse.emotional_arc data);;
      ret (scriptResult (PdfAnalysisResponse.base data) confidence emotionalArc)
  | TypeScript =>
      scriptText <- ret (file_text file);;
      if negb (truthy (trim scriptText))
      then throw (Error "Script file is empty.")
      else
        data <- analyzeScript scriptText;;
        let confidence := toPercent (ScriptAnalysisResponse.confidence data) in
        addAnalysisConfidence (inject_Z confidence);;
        emotionalArc <- mapScriptArc (ScriptAnalysisResponse.emotional_arc data);;
        ret (scriptResult data confidence emotionalArc)
  end.

Definition emotionApi_analyzeYouTube (url : string) : M AnalysisResult.t :=
  data <- analyzeYouTubeVideo url;;
  let confidence := toPercent (nullish (VideoUploadResponse.confidence data) 0%Q) in
  incrementVideos;;
  addAnalysisConfidence (inject_Z confidence);;
  ret (videoResult data confidence).

(** ** The chat panel, ChatbotSection.tsx *)

(** The state of the component that [handleSendMessage] reads. *)
Record ChatbotState := mkChatbotState
  { chatMode : ChatMode; responseMode : ResponseMode;
    llmProvider : ChatProvider; apiKey : string;
    pdfFile : option File; input : string }.

(** The argument [handleSendMessage] builds for [chatbotApi.sendMessage]. *)
Definition sendMessageInput (st : ChatbotState) : SendMessageInput.t :=
  {| SendMessageInput.message := input st;
     SendMessageInput.mode := chatMode st;
     SendMessageInput.responseMode := responseMode st;
     SendMessageInput.provider := llmProvider st;
     SendMessageInput.apiKey :=
       match llmProvider st with
       | ProviderExternal => Some (apiKey st)
       | ProviderLocal => None
       end;
     SendMessageInput.pdfContext := pdfFile st |}.

(** [handleSendMessage]: the content of the assistant message appended to
    the conversation, [None] when the input is blank and nothing is sent. *)
Definition handleSendMessage (st : ChatbotState) : M (option string) :=
  if negb (truthy (trim (input st))) then ret None
  else
    try_catch
      (response <- chatbotApi_sendMessage (sendMessageInput st);;
       ret (Some (ChatResponse.response response)))
      (fun _ => ret (Some "Sorry, I encountered an error. Please try again.")).

End Adapter.

(** ** Observations used in the statements *)

(** The credential a request body carries. *)
Definition credential (request : Request) : option string :=
  match request with
  | PostChat body => BackendChatRequest.api_key body
  | PostRagQuery body => BackendRagRequest.api_key body
  | _ => None
  end.

(** The request kinds of the analysis path, and their dispatch to the two
    entry points of [emotionApi] (the dispatch of [handleAnalyze] in
    [EmotionAnalysisSection.tsx]). *)
Inductive AnalysisRequest :=
| VideoRequest (file : File)
| ScriptRequest (file : File)
| PdfRequest (file : File)
| YoutubeLinkRequest (url : string).

Definition analyze (backend : Backend) (request : AnalysisRequest)
  : M AnalysisResult.t :=
  match request with
  | VideoRequest file => emotionApi_analyze backend file TypeVideo
  | ScriptRequest file => emotionApi_analyze backend file TypeScript
  | PdfRequest file => emotionApi_analyze backend file TypePdf
  | YoutubeLinkRequest url => emotionApi_analyzeYouTube backend url
  end.

Definition isVideoKind (request : AnalysisRequest) : bool :=
  match request with
  | VideoRequest _ | YoutubeLinkRequest _ => true
  | ScriptRequest _ | PdfRequest _ => false
  end.

(** The one request [sendChat] issues for a payload. *)
Definition chatBody (payload : ChatPayload.t) : Request :=
  match ChatPayload.mode payload with
  | ModePdf => PostRagQuery (ragRequest payload)
  | ModeGeneral => PostChat (chatRequest payload)
  end.

(** ** Scenarios *)

(** A backend that is down: every call fails. *)
Definition silentBackend : Backend :=
  {| chat := fun _ _ => None;
     rag_query := fun _ _ => None;
     upload_pdf := fun _ _ => None;
     script_analyze := fun _ _ => None;
     script_upload_pdf := fun _ _ => None;
     video_upload := fun _ _ => None;
     video_youtube := fun _ _ => None |}.

Definition joyAnalysis : ScriptAnalysisResponse.t :=
  {| ScriptAnalysisResponse.emotion_label := "joy";
     ScriptAnalysisResponse.dominant_mood := "Joy";
     ScriptAnalysisResponse.confidence := binary64 0.90;
     ScriptAnalysisResponse.emotional_arc :=
       [Point (Some (binary64 0.85)); Point None];
     ScriptAnalysisResponse.emotion_summary := "Mostly joyful." |}.

Definition tenseVideo : VideoUploadResponse.t :=
  {| VideoUploadResponse.language_detected := "en";
     VideoUploadResponse.confidence := Some (binary64 0.72);
     VideoUploadResponse.transcript_preview := "It was a dark night.";
     VideoUploadResponse.audio_emotion :=
       {| EmotionTrack.dominant_mood := "intense";
          EmotionTrack.emotional_arc :=
            [mkArcEntry 0 5 "calm"; mkArcEntry 5 10 "intense";
             mkArcEntry 10 15 "unknown"] |};
     VideoUploadResponse.script_emotion :=
       {| EmotionTrack.dominant_mood := "dark";
          EmotionTrack.emotional_arc := [] |} |}.

(** A backend that answers every chat and every document with the same
    words, finds joy at confidence 0.90 in every script and PDF, and
    tension at confidence 0.72 in every video. *)
Definition joyBackend : Backend :=
  {| chat := fun _ _ => Some {| ChatResponse.response := "Hello." |};
     rag_query := fun _ _ => Some "It is on page 2.";
     upload_pdf := fun _ _ => Some tt;
     script_analyze := fun _ _ => Some joyAnalysis;
     script_upload_pdf := fun _ _ =>
       Some {| PdfAnalysisResponse.base := joyAnalysis;
               PdfAnalysisResponse.script_preview := None |};
     video_upload := fun _ _ => Some tenseVideo;
     video_youtube := fun _ _ => Some tenseVideo |}.

Definition reportPdf : File := {| file_name := "report.pdf"; file_text := "%PDF-1.7" |}.

Definition nightClip : File := {| file_name := "night.mp4"; file_text := "ftypisom" |}.

(** The chat panel set to the local provider and the contextual mode,
    with a key left in its key field and a document attached. *)
Definition localPanel : ChatbotState :=
  {| chatMode := ModePdf; responseMode := Solve;
     llmProvider := ProviderLocal; apiKey := "sk-123";
     pdfFile := Some reportPdf; input := "What is on page 2?" |}.

(** The same panel switched to the external provider. *)
Definition externalPanel : ChatbotState :=
  {| chatMode := ModePdf; responseMode := Solve;
     llmProvider := ProviderExternal; apiKey := "sk-123";
     pdfFile := Some reportPdf; input := "What is on page 2?" |}.

(** A fresh browser profile: nothing stored, nothing sent. *)
Definition emptyWorld : World :=
  {| localStorage := ∅; requests := []; dispatched := [] |}.

(** The metrics record as [readMetrics] sees it; [None] is [null]. *)
Definition currentMetrics (w : World) : option StoredMetrics.t :=
  match fst (readMetrics w) with
  | Returned metrics => metrics
  | Thrown _ => None
  end.

(** The world after the requests [rs] went out and nothing else happened. *)
Definition sent (rs : list Request) (w : World) : World :=
  {| localStorage := localStorage w;
     requests := requests w ++ rs;
     dispatched := dispatched w |}.

(** The world after [writeMetrics next]. *)
Definition written (next : StoredMetrics.t) (w : World) : World :=
  {| localStorage := <[METRICS_KEY := TextMetrics next]> (localStorage w);
     requests := requests w;
     dispatched := dispatched w ++ [METRICS_EVENT] |}.

(** ** The store driven by a sequence of events *)

(** The three mutations of the metrics store. *)
Inductive StoreEvent :=
| ConversationEvent
| VideoEvent
| SampleEvent (confidencePercent : Q).

Definition recordEvent (event : StoreEvent) : M unit :=
  match event with
  | ConversationEvent => incrementConversation
  | VideoEvent => incrementVideos
  | SampleEvent confidencePercent => addAnalysisConfidence confidencePercent
  end.

(** The events recorded one after the other. *)
Fixpoint recordEvents (events : list StoreEvent) : M unit :=
  match events with
  | [] => ret tt
  | event :: later => recordEvent event;; recordEvents later
  end.

Definition isConversation (event : StoreEvent) : bool :=
  match event with ConversationEvent => true | _ => false end.

Definition isVideo (event : StoreEvent) : bool :=
  match event with VideoEvent => true | _ => false end.

(** The confidences of the samples among the events, in order. *)
Fixpoint samplesOf (events : list StoreEvent) : list Q :=
  match events with
  | [] => []
  | SampleEvent c :: later => c :: samplesOf later
  | _ :: later => samplesOf later
  end.

Definition Qsum (xs : list Q) : Q := fold_right Qplus 0%Q xs.

(** How many of the events satisfy [p]. *)
Fixpoint countOf (p : StoreEvent -> bool) (events : list StoreEvent) : Z :=
  match events with
  | [] => 0
  | event :: later => (if p event then 1 else 0) + countOf p later
  end.

Definition isSample (event : StoreEvent) : bool :=
  match event with SampleEvent _ => true | _ => false end.

(** A sample as the analysis path records it, when the backend reports
    a confidence in [0, 1]: a whole percentage. *)
Definition wholePercent (event : StoreEvent) : Prop :=
  match event with
  | SampleEvent c => exists n : Z, c = inject_Z n /\ 0 <= n <= 100
  | ConversationEvent | VideoEvent => True
  end.

(** The requests an analysis call issues: one, to the endpoint of its
    kind; none for a script whose text is blank. *)
Definition requestsOf (request : AnalysisRequest) : list Request :=
  match request with
  | VideoRequest file => [PostVideoUpload file]
  | ScriptRequest file =>
      if truthy (trim (file_text file))
      then [PostScriptAnalyze (file_text file)]
      else []
  | PdfRequest file => [PostScriptUploadPdf file]
  | YoutubeLinkRequest url => [PostVideoYoutube url]
  end.

(** Whether the backend answers the request of an analysis call issued
    in the world [w]. *)
Definition backendAnswers (backend : Backend) (request : AnalysisRequest)
  (w : World) : bool :=
  match request with
  | VideoRequest file => bool_decide (is_Some (video_upload backend (requests w) file))
  | ScriptRequest file =>
      bool_decide (is_Some (script_analyze backend (requests w) (file_text file)))
  | PdfRequest file =>
      bool_decide (is_Some (script_upload_pdf backend (requests w) file))
  | YoutubeLinkRequest url =>
      bool_decide (is_Some (video_youtube backend (requests w) url))
  end.

(** The scores of the mood table. *)
Definition moodScores : list Z := [95; 85; 80; 70; 40; 50].

(** A backend confidence, given or missing, that lies in [0, 1]. *)
Definition unitConfidence (x : option Q) : Prop :=
  match x with
  | Some c => (0 <= c)%Q /\ (c <= 1)%Q
  | None => True
  end.

(** An arc element with a member [confidence] in [0, 1], or with none. *)
Definition unitPoint (point : ArcPoint) : Prop :=
  match point with
  | Point confidence => unitConfidence confidence
  | NullPoint => False
  end.

(** Whether [null] or [undefined] is among the elements of an arc. *)
Definition hasNullPoint (arc : list ArcPoint) : bool :=
  existsb (fun point => match point with NullPoint => true | Point _ => false end) arc.

(** The percentages of an arc: of each element, its confidence or 0,
    times 100, rounded. *)
Definition arcPercents (arc : list ArcPoint) : list JsValue :=
  map (fun point =>
         Num (toPercent (nullish match point with
                                 | Point confidence => confidence
                                 | NullPoint => None
                                 end 0%Q)))
      arc.

(** The body the backend answers a video or a YouTube call with, when
    the call is made in the world [w]. *)
Definition videoAnswer (backend : Backend) (request : AnalysisRequest)
  (w : World) : option VideoUploadResponse.t :=
  match request with
  | VideoRequest file => video_upload backend (requests w) file
  | YoutubeLinkRequest url => video_youtube backend (requests w) url
  | ScriptRequest _ | PdfRequest _ => None
  end.

(** The body the backend answers a script or a PDF call with; a script
    whose text is blank is not sent, and has no answer. *)
Definition scriptAnswer (backend : Backend) (request : AnalysisRequest)
  (w : World) : option ScriptAnalysisResponse.t :=
  match request with
  | ScriptRequest file =>
      if truthy (trim (file_text file))
      then script_analyze backend (requests w) (file_text file)
      else None
  | PdfRequest file =>
      option_map PdfAnalysisResponse.base
        (script_upload_pdf backend (requests w) file)
  | VideoRequest _ | YoutubeLinkRequest _ => None
  end.

(** Whether the arc of that body holds [null] or [undefined]. *)
Definition arcBroken (backend : Backend) (request : AnalysisRequest)
  (w : World) : bool :=
  match scriptAnswer backend request w with
  | Some data => hasNullPoint (ScriptAnalysisResponse.emotional_arc data)
  | None => false
  end.

(** The reply [handleSendMessage] shows when the call failed. *)
Definition apology : string := "Sorry, I encountered an error. Please try again.".

(** A video response whose confidence is [null]. *)
Definition mutedVideo : VideoUploadResponse.t :=
  {| VideoUploadResponse.language_detected := "en";
     VideoUploadResponse.confidence := None;
     VideoUploadResponse.transcript_preview := "";
     VideoUploadResponse.audio_emotion :=
       {| EmotionTrack.dominant_mood := "calm"; EmotionTrack.emotional_arc := [] |};
     VideoUploadResponse.script_emotion :=
       {| EmotionTrack.dominant_mood := "calm"; EmotionTrack.emotional_arc := [] |} |}.

Definition mutedBackend : Backend :=
  {| chat := fun _ _ => None;
     rag_query := fun _ _ => None;
     upload_pdf := fun _ _ => None;
     script_analyze := fun _ _ => None;
     script_upload_pdf := fun _ _ => None;
     video_upload := fun _ _ => Some mutedVideo;
     video_youtube := fun _ _ => Some mutedVideo |}.

(** A script file with a line of text. *)
Definition sceneScript : File :=
  {| file_name := "scene.txt"; file_text := "INT. KITCHEN - NIGHT" |}.

(** An analysis whose arc has lost a sample: its second element is
    [null]. *)
Definition gappedAnalysis : ScriptAnalysisResponse.t :=
  {| ScriptAnalysisResponse.emotion_label := "joy";
     ScriptAnalysisResponse.dominant_mood := "Joy";
     ScriptAnalysisResponse.confidence := binary64 0.90;
     ScriptAnalysisResponse.emotional_arc :=
       [Point (Some (binary64 0.85)); NullPoint];
     ScriptAnalysisResponse.emotion_summary := "Mostly joyful." |}.

(** A backend that answers every script and every PDF with it. *)
Definition gappedBackend : Backend :=
  {| chat := fun _ _ => None;
     rag_query := fun _ _ => None;
     upload_pdf := fun _ _ => None;
     script_analyze := fun _ _ => Some gappedAnalysis;
     script_upload_pdf := fun _ _ =>
       Some {| PdfAnalysisResponse.base := gappedAnalysis;
               PdfAnalysisResponse.script_preview := None |};
     video_upload := fun _ _ => None;
     video_youtube := fun _ _ => None |}.

(** The chat panel in the general mode with a document still attached. *)
Definition generalPanel : ChatbotState :=
  {| chatMode := ModeGeneral; responseMode := Solve;
     llmProvider := ProviderLocal; apiKey := "";
     pdfFile := Some reportPdf; input := " Hello " |}.

(** ** The analysis panel, EmotionAnalysisSection.tsx *)

(** ['video' | 'script' | 'pdf' | 'youtube']; [null] is [None]. *)
Inductive SelectedType :=
| SelFile (type : AnalyzeType)
| SelYoutube.

Record EmotionPanel := mkEmotionPanel
  { selectedType : option SelectedType;
    uploadedFile : option File;
    youtubeUrl : string;
    isAnalyzing : bool;
    result : option AnalysisResult.t }.

(** The panel as the component mounts. *)
Definition initialPanel : EmotionPanel :=
  {| selectedType := None; uploadedFile := None; youtubeUrl := "";
     isAnalyzing := false; result := None |}.

(** [handleFileUpload(e, type)]; [chosen] is [e.target.files?.[0]]. *)
Definition handleFileUpload (chosen : option File) (type : AnalyzeType)
  (st : EmotionPanel) : EmotionPanel :=
  match chosen with
  | Some file =>
      {| selectedType := Some (SelFile type); uploadedFile := Some file;
         youtubeUrl := youtubeUrl st; isAnalyzing := isAnalyzing st;
         result := None |}
  | None => st
  end.

(** The click handler of the YouTube button. *)
Definition selectYoutube (st : EmotionPanel) : EmotionPanel :=
  {| selectedType := Some SelYoutube; uploadedFile := None;
     youtubeUrl := youtubeUrl st; isAnalyzing := isAnalyzing st;
     result := None |}.

(** [setYoutubeUrl(e.target.value)] *)
Definition setYoutubeUrl (url : string) (st : EmotionPanel) : EmotionPanel :=
  {| selectedType := selectedType st; uploadedFile := uploadedFile st;
     youtubeUrl := url; isAnalyzing := isAnalyzing st; result := result st |}.

(** The panel when [handleAnalyze] is over: [finally] has reset
    [isAnalyzing], and [setResult] ran if the analysis returned. *)
Definition analyzed (outcome : option AnalysisResult.t) (st : EmotionPanel)
  : EmotionPanel :=
  {| selectedType := selectedType st; uploadedFile := uploadedFile st;
     youtubeUrl := youtubeUrl st; isAnalyzing := false;
     result := match outcome with
               | Some analysisResult => Some analysisResult
               | None => result st
               end |}.

(** [handleAnalyze], run from the click to the end of its [finally]. *)
Definition handleAnalyze (backend : Backend) (st : EmotionPanel) : M EmotionPanel :=
  match selectedType st with
  | None => ret st
  | Some selected =>
      try_catch
        (analysisResult <-
           match selected with
           | SelYoutube =>
               if negb (truthy (trim (youtubeUrl st)))
               then throw (Error "Please enter a YouTube URL.")
               else emotionApi_analyzeYouTube backend (trim (youtubeUrl st))
           | SelFile type =>
               match uploadedFile st with
               | None => throw (Error "Please upload a file first.")
               | Some file => emotionApi_analyze backend file type
               end
           end;;
         ret (analyzed (Some analysisResult) st))
        (fun _ => ret (analyzed None st))
  end.

(** The guard of [handleGenerateReport]: [!result || !uploadedFile]
    returns before anything is drawn. *)
Definition reportAvailable (st : EmotionPanel) : bool :=
  match result st, uploadedFile st with
  | Some _, Some _ => true
  | _, _ => false
  end.

(** What the user does on the panel. *)
Inductive PanelEvent :=
| FileChosen (chosen : option File) (type : AnalyzeType)
| YoutubeClicked
| UrlTyped (url : string)
| AnalyzeClicked.

Definition panelStep (backend : Backend) (event : PanelEvent)
  (state : EmotionPanel * World) : EmotionPanel * World :=
  let (st, w) := state in
  match event with
  | FileChosen chosen type => (handleFileUpload chosen type st, w)
  | YoutubeClicked => (selectYoutube st, w)
  | UrlTyped url => (setYoutubeUrl url st, w)
  | AnalyzeClicked =>
      match handleAnalyze backend st w with
      | (Returned st', w') => (st', w')
      | (Thrown _, w') => (st, w')
      end
  end.

(** The panel after a sequence of events, each handled to its end. *)
Definition panelRun (backend : Backend) (events : list PanelEvent)
  (state : EmotionPanel * World) : EmotionPanel * World :=
  fold_left (fun state event => panelStep backend event state) events state.


(** The state the panel is in between two events: no analysis running,
    and a file held exactly when a file type is selected. *)
Definition panelInvariant (st : EmotionPanel) : Prop :=
  isAnalyzing st = false /\
  match selectedType st with
  | Some (SelFile _) => is_Some (uploadedFile st)
  | Some SelYoutube | None => uploadedFile st = None
  end.

(** *** The report, [handleGenerateReport] *)

(** The level column of the breakdown table:
    [value >= 60 ? 'High' : value >= 30 ? 'Medium' : 'Low']. *)
Definition emotionLevel (value : Z) : string :=
  if 60 <=? value then "High" else if 30 <=? value then "Medium" else "Low".

(** The wording of the confidence insight:
    [confidence > 85 ? ... : confidence > 70 ? ... : ...]. *)
Definition reliability (confidence : Z) : string :=
  if 85 <? confidence then "highly reliable"
  else if 70 <? confidence then "moderately reliable"
  else "cautious interpretation needed".

(** [a > b] where either side may be [undefined]. *)
Definition gtNumber (a b : option Z) : bool :=
  match a, b with
  | Some x, Some y => y <? x
  | _, _ => false
  end.

(** The wording of the arc insight, from [arc[0]] and
    [arc[arc.length - 1]], for an arc of numbers. *)
Definition arcTrend (arc : list Z) : string :=
  let first := head arc in
  let final := last arc in
  if gtNumber first final then "a declining trend"
  else if gtNumber final first then "an ascending trend"
  else "relatively stable emotions".

(** The bytes of the first character of a UTF-8 string, by its lead
    byte. *)
Definition utf8Width (lead : ascii) : nat :=
  let n := N_of_ascii lead in
  if (n <? 128)%N then 1%nat
  else if (n <? 224)%N then 2%nat
  else if (n <? 240)%N then 3%nat
  else 4%nat.

Fixpoint dropBytes (n : nat) (s : string) : string :=
  match n, s with
  | S n', String _ rest => dropBytes n' rest
  | _, _ => s
  end.

(** No ['/'] and no ['.'] in the string: what [[^/.]] admits. *)
Definition noSlashDot (s : string) : bool :=
  forallb (fun a => negb (byte_in a [46; 47]%N)) (list_ascii_of_string s).

(** Whether [.[^/.]+$] matches the whole of [s].  The dot takes one
    UTF-16 code unit that is not a line terminator (LF, CR, U+2028,
    U+2029); of a character outside the basic plane it takes the first
    half and leaves the second to the class. *)
Definition matchesDotClass (s : string) : bool :=
  match s with
  | EmptyString => false
  | String a rest =>
      match utf8Width a with
      | 1%nat => negb (byte_in a [10; 13]%N) && truthy rest && noSlashDot rest
      | 2%nat => truthy (dropBytes 1 rest) && noSlashDot (dropBytes 1 rest)
      | 3%nat =>
          negb (match rest with
                | String b (String c _) =>
                    byte_in a [226]%N && byte_in b [128]%N && byte_in c [168; 169]%N
                | _ => false
                end)
          && truthy (dropBytes 2 rest) && noSlashDot (dropBytes 2 rest)
      | _ => noSlashDot (dropBytes 3 rest)
      end
  end.

(** [name.replace(/\\.[^/.]+$/, '')]: in the regular expression of the
    source the backslash is doubled, so the pattern is a backslash, any
    character, then characters other than ['/'] and ['.'] up to the end;
    the leftmost match is removed. *)
Fixpoint stripExtension (name : string) : string :=
  match name with
  | EmptyString => EmptyString
  | String a rest =>
      if byte_in a [92]%N && matchesDotClass rest then EmptyString
      else String a (stripExtension rest)
  end.

(** No backslash in the string. *)
Definition noBackslash (s : string) : bool :=
  forallb (fun a => negb (byte_in a [92]%N)) (list_ascii_of_string s).

(** The name the report is saved under; [today] is
    [new Date().toISOString().split('T')[0]]. *)
Definition reportFileName (file : File) (today : string) : string :=
  ("CogniFlow_Analysis_" ++ stripExtension (file_name file) ++ "_" ++ today ++ ".pdf")%string.

(** ** The session: token storage and the account dialog

    [getAuthToken], [setAuthToken], [clearAuthToken], [authHeaders],
    [signup], [login], [getCurrentUser] and [logout] of the service
    module, and [handleAuthSubmit], [handleLogout], [saveSettings] and
    the mount effect of [App.tsx].  Here [localStorage] is what it is, a
    map from keys to strings. *)

Definition AUTH_TOKEN_KEY : string := "cogniflow_auth_token".
Definition API_BASE_KEY : string := "cogniflow_api_base".
Definition DEFAULT_API_BASE : string := "http://127.0.0.1:8000".

(** [x || fallback] for [x: string | null] *)
Definition orElse (x : option string) (fallback : string) : string :=
  match x with
  | Some text => if truthy text then text else fallback
  | None => fallback
  end.

Definition getAuthToken (store : gmap string string) : string :=
  orElse (store !! AUTH_TOKEN_KEY) "".

Definition setAuthToken (token : string) (store : gmap string string)
  : gmap string string :=
  if negb (truthy token) then store else <[AUTH_TOKEN_KEY := token]> store.

Definition clearAuthToken (store : gmap string string) : gmap string string :=
  delete AUTH_TOKEN_KEY store.

(** [authHeaders]: the [Authorization] header, [None] for the empty
    object. *)
Definition authHeaders (store : gmap string string) : option string :=
  let token := getAuthToken store in
  if truthy token then Some ("Bearer " ++ token)%string else None.

Module AuthResponse.
Record t := mk { token : string; full_name : string; email : string }.
End AuthResponse.

Module AuthUser.
Record t := mk { full_name : string; email : string }.
End AuthUser.

(** A request to an account endpoint. *)
Inductive AuthRequest :=
| PostSignup (full_name email password : string)
| PostLogin (email password : string)
| GetMe (authorization : option string)
| PostLogout (authorization : option string).

(** The account endpoints.  A failed call to [signup] or [login] carries
    what [error?.response?.data?.detail] reads: [None] when there is no
    response or no detail. *)
Record AuthBackend := mkAuthBackend
  { auth_signup : string -> string -> string -> AuthResponse.t + option string;
    auth_login : string -> string -> AuthResponse.t + option string;
    auth_me : option string -> option AuthUser.t;
    auth_logout : option string -> bool }.

Record Session := mkSession
  { store : gmap string string;
    authRequests : list AuthRequest }.   (* oldest first *)

Inductive AuthMode := AuthLogin | AuthSignup.

(** The state of [App] that the handlers read and write. *)
Record App := mkApp
  { authMode : AuthMode;
    userName : string; userEmail : string;
    loginName : string; loginEmail : string; loginPassword : string;
    authError : string; isAuthLoading : bool;
    isLoginOpen : bool; isProfileOpen : bool; isSettingsOpen : bool;
    apiBaseUrl : string }.

(** [s.length]: the UTF-16 code units of a UTF-8 string; a character of
    four bytes takes two. *)
Fixpoint utf16Length (s : string) : nat :=
  match s with
  | EmptyString => 0
  | String a rest =>
      let n := N_of_ascii a in
      ((if (n <? 128)%N then 1
        else if (n <? 192)%N then 0
        else if (n <? 240)%N then 1
        else 2) + utf16Length rest)%nat
  end.

Definition withAuthError (message : string) (app : App) : App :=
  {| authMode := authMode app; userName := userName app; userEmail := userEmail app;
     loginName := loginName app; loginEmail := loginEmail app;
     loginPassword := loginPassword app;
     authError := message; isAuthLoading := isAuthLoading app;
     isLoginOpen := isLoginOpen app; isProfileOpen := isProfileOpen app;
     isSettingsOpen := isSettingsOpen app; apiBaseUrl := apiBaseUrl app |}.

(** The request [handleAuthSubmit] sends once the form is accepted. *)
Definition authRequest (app : App) : AuthRequest :=
  match authMode app with
  | AuthSignup =>
      PostSignup (trim (loginName app)) (trim (loginEmail app)) (loginPassword app)
  | AuthLogin => PostLogin (trim (loginEmail app)) (loginPassword app)
  end.

Definition authAnswer (backend : AuthBackend) (app : App)
  : AuthResponse.t + option string :=
  match authMode app with
  | AuthSignup =>
      auth_signup backend (trim (loginName app)) (trim (loginEmail app))
        (loginPassword app)
  | AuthLogin => auth_login backend (trim (loginEmail app)) (loginPassword app)
  end.

(** The form is rejected before anything is sent:
    [!loginEmail.trim() || !loginPassword.trim()], then, for a signup,
    [loginName.trim().length < 2]. *)
Definition authFormError (app : App) : option string :=
  if negb (truthy (trim (loginEmail app))) || negb (truthy (trim (loginPassword app)))
  then Some "Email and password are required."
  else
    match authMode app with
    | AuthSignup =>
        if (utf16Length (trim (loginName app)) <? 2)%nat
        then Some "Full name must be at least 2 characters."
        else None
    | AuthLogin => None
    end.

(** The state after a successful [signup] or [login]. *)
Definition signedIn (response : AuthResponse.t) (app : App) : App :=
  {| authMode := authMode app;
     userName := AuthResponse.full_name response;
     userEmail := AuthResponse.email response;
     loginName := loginName app; loginEmail := loginEmail app;
     loginPassword := "";
     authError := ""; isAuthLoading := false;
     isLoginOpen := false; isProfileOpen := isProfileOpen app;
     isSettingsOpen := isSettingsOpen app; apiBaseUrl := apiBaseUrl app |}.

(** The state after a failed one. *)
Definition authFailed (detail : option string) (app : App) : App :=
  {| authMode := authMode app; userName := userName app; userEmail := userEmail app;
     loginName := loginName app; loginEmail := loginEmail app;
     loginPassword := loginPassword app;
     authError := orElse detail "Authentication failed."; isAuthLoading := false;
     isLoginOpen := isLoginOpen app; isProfileOpen := isProfileOpen app;
     isSettingsOpen := isSettingsOpen app; apiBaseUrl := apiBaseUrl app |}.

(** [handleAuthSubmit], from the click to the end of its [finally]. *)
Definition handleAuthSubmit (backend : AuthBackend) (app : App) (session : Session)
  : App * Session :=
  match authFormError app with
  | Some message => (withAuthError message app, session)
  | None =>
      let session' :=
        {| store := store session;
           authRequests := authRequests session ++ [authRequest app] |} in
      match authAnswer backend app with
      | inl response =>
          (signedIn response app,
           {| store := setAuthToken (AuthResponse.token response) (store session');
              authRequests := authRequests session' |})
      | inr detail => (authFailed detail app, session')
      end
  end.

(** The state once the user is forgotten locally. *)
Definition signedOut (closeProfile : bool) (app : App) : App :=
  {| authMode := authMode app; userName := ""; userEmail := "";
     loginName := loginName app; loginEmail := loginEmail app;
     loginPassword := loginPassword app;
     authError := authError app; isAuthLoading := isAuthLoading app;
     isLoginOpen := isLoginOpen app;
     isProfileOpen := if closeProfile then false else isProfileOpen app;
     isSettingsOpen := isSettingsOpen app; apiBaseUrl := apiBaseUrl app |}.

(** [handleLogout]: the call to the backend may fail, the local cleanup
    runs all the same. *)
Definition handleLogout (backend : AuthBackend) (app : App) (session : Session)
  : App * Session :=
  let request := PostLogout (authHeaders (store session)) in
  let _ := auth_logout backend (authHeaders (store session)) in
  (signedOut true app,
   {| store := clearAuthToken (store session);
      authRequests := authRequests session ++ [request] |}).

Definition withApiBase (url : string) (app : App) : App :=
  {| authMode := authMode app; userName := userName app; userEmail := userEmail app;
     loginName := loginName app; loginEmail := loginEmail app;
     loginPassword := loginPassword app;
     authError := authError app; isAuthLoading := isAuthLoading app;
     isLoginOpen := isLoginOpen app; isProfileOpen := isProfileOpen app;
     isSettingsOpen := isSettingsOpen app; apiBaseUrl := url |}.

Definition withUser (user : AuthUser.t) (app : App) : App :=
  {| authMode := authMode app;
     userName := AuthUser.full_name user; userEmail := AuthUser.email user;
     loginName := loginName app; loginEmail := loginEmail app;
     loginPassword := loginPassword app;
     authError := authError app; isAuthLoading := isAuthLoading app;
     isLoginOpen := isLoginOpen app; isProfileOpen := isProfileOpen app;
     isSettingsOpen := isSettingsOpen app; apiBaseUrl := apiBaseUrl app |}.

(** The effect [App] runs when it mounts, with the promise of
    [getCurrentUser] settled. *)
Definition mountEffect (backend : AuthBackend) (app : App) (session : Session)
  : App * Session :=
  let app' := withApiBase (orElse (store session !! API_BASE_KEY) DEFAULT_API_BASE) app in
  if negb (truthy (getAuthToken (store session))) then (app', session)
  else
    let session' :=
      {| store := store session;
         authRequests := authRequests session ++ [GetMe (authHeaders (store session))] |} in
    match auth_me backend (authHeaders (store session)) with
    | Some user => (withUser user app', session')
    | None =>
        (signedOut false app',
         {| store := clearAuthToken (store session');
            authRequests := authRequests session' |})
    end.

(** [saveSettings] *)
Definition saveSettings (app : App) (session : Session) : App * Session :=
  ({| authMode := authMode app; userName := userName app; userEmail := userEmail app;
      loginName := loginName app; loginEmail := loginEmail app;
      loginPassword := loginPassword app;
      authError := authError app; isAuthLoading := isAuthLoading app;
      isLoginOpen := isLoginOpen app; isProfileOpen := isProfileOpen app;
      isSettingsOpen := false; apiBaseUrl := apiBaseUrl app |},
   {| store := <[API_BASE_KEY := orElse (Some (trim (apiBaseUrl app))) DEFAULT_API_BASE]>
                 (store session);
      authRequests := authRequests session |}).

(** An account backend that signs in every login as the same user and
    has no session to resume or to end. *)
Definition adaBackend : AuthBackend :=
  {| auth_signup := fun _ _ _ => inr (Some "Email already registered.");
     auth_login := fun email _ =>
       inl {| AuthResponse.token := "tok-1";
              AuthResponse.full_name := "Ada Lovelace";
              AuthResponse.email := email |};
     auth_me := fun _ => None;
     auth_logout := fun _ => false |}.

(** The account dialog filled in for a login. *)
Definition loginForm : App :=
  {| authMode := AuthLogin; userName := ""; userEmail := "";
     loginName := ""; loginEmail := " ada@example.org "; loginPassword := "pw ";
     authError := ""; isAuthLoading := false;
     isLoginOpen := true; isProfileOpen := false; isSettingsOpen := false;
     apiBaseUrl := DEFAULT_API_BASE |}.

Definition emptySession : Session := {| store := ∅; authRequests := [] |}.

(** * Properties *)

(** ** Rounding to a double *)

(** The rounding functions take equal rationals to the same result. *)
Lemma roundHalfEven_comp (r r' : Q) : (r == r')%Q -> roundHalfEven r = roundHalfEven r'.
Proof.
  intros H. unfold roundHalfEven.
  rewrite (Qfloor_comp _ _ H).
  assert (Qcompare (r - inject_Z (Qfloor r')) (1 # 2) = Qcompare (r' - inject_Z (Qfloor r')) (1 # 2)) as ->.
  { apply Qcompare_comp; [now rewrite H | reflexivity]. }
  reflexivity.
Qed.

(** Rounding to the nearest integer does not cross an integer. *)
Lemma roundHalfEven_le (r : Q) (n : Z) : (r <= inject_Z n)%Q -> roundHalfEven r <= n.
Proof.
  intros H. unfold roundHalfEven.
  pose proof (Qfloor_le r) as Hf. pose proof (Qlt_floor r) as Hlt.
  assert (Qfloor r <= n) as Hfn.
  { rewrite Zle_Qle. now apply Qle_trans with r. }
  destruct (Z.eq_dec (Qfloor r) n) as [Heq|Hne].
  - assert (Qcompare (r - inject_Z (Qfloor r)) (1 # 2) = Lt) as ->; [|lia].
    rewrite <- Qlt_alt. rewrite Heq.
    apply Qle_lt_trans with 0%Q; [|reflexivity].
    rewrite <- (Qplus_opp_r (inject_Z n)). apply Qplus_le_l. exact H.
  - destruct (Qcompare (r - inject_Z (Qfloor r)) (1 # 2)); [destruct (Z.even _)| |]; lia.
Qed.

Lemma roundHalfEven_ge (r : Q) (n : Z) : (inject_Z n <= r)%Q -> n <= roundHalfEven r.
Proof.
  intros H. unfold roundHalfEven.
  assert (n <= Qfloor r) as Hfn.
  { rewrite <- (Qfloor_Z n). now apply Qfloor_resp_le. }
  destruct (Qcompare (r - inject_Z (Qfloor r)) (1 # 2)); [destruct (Z.even _)| |]; lia.
Qed.

(** Below 2^53 the last place of a double is at most the unit. *)
Lemma floorLog2_small (q : Q) : (q < inject_Z (2 ^ 53))%Q -> floorLog2 q <= 52.
Proof.
  intros H. unfold floorLog2.
  destruct (Qle_bool 1 q) eqn:E.
  - apply Qle_bool_iff in E.
    assert (0 < Qfloor q) as Hpos.
    { apply Z.lt_le_trans with 1; [lia|].
      change 1 with (Qfloor 1). now apply Qfloor_resp_le. }
    assert (Qfloor q < 2 ^ 53) as Hlt.
    { rewrite Zlt_Qlt. apply Qle_lt_trans with q; [apply Qfloor_le | exact H]. }
    apply (Z.log2_lt_pow2 _ 53 Hpos) in Hlt. lia.
  - pose proof (Z.log2_up_nonneg (Qceiling (/ q))). lia.
Qed.

Lemma ulpExponent_small (q : Q) (lo hi : Z) :
  - 2 ^ 53 < lo -> hi < 2 ^ 53 ->
  (inject_Z lo <= q)%Q -> (q <= inject_Z hi)%Q ->
  ulpExponent q <= 0.
Proof.
  intros Hlo Hhi Hl Hh. unfold ulpExponent.
  assert (floorLog2 (Qabs q) <= 52); [|lia].
  apply floorLog2_small.
  apply Qabs_case; intros Hsign.
  - apply Qle_lt_trans with (inject_Z hi); [exact Hh|]. now rewrite <- Zlt_Qlt.
  - apply Qle_lt_trans with (inject_Z (- lo)).
    + rewrite inject_Z_opp. now apply Qopp_le_compat.
    + rewrite <- Zlt_Qlt. lia.
Qed.

(** A negative power of two is the inverse of a whole number. *)
Lemma Qpower_2_nonpos (e : Z) :
  e <= 0 -> (2 ^ e == / inject_Z (2 ^ (- e)))%Q.
Proof.
  intros He. rewrite (Zpower_Qpower 2 (- e)) by lia.
  change (inject_Z 2) with 2%Q.
  rewrite <- Qpower_opp. now rewrite Z.opp_involutive.
Qed.

(** Below 2^53, [binary64 q] is [q] scaled by a power of two, rounded
    to an integer, and scaled back. *)
Lemma binary64_scaled (q : Q) :
  ulpExponent q <= 0 ->
  let s := 2 ^ (- ulpExponent q) in
  0 < s /\
  (binary64 q == inject_Z (roundHalfEven (q * inject_Z s)) / inject_Z s)%Q.
Proof.
  intros He s.
  assert (0 < s) as Hs by (apply Z.pow_pos_nonneg; lia).
  split; [exact Hs|].
  unfold binary64. rewrite Qred_correct.
  pose proof (Qpower_2_nonpos _ He) as Hp. fold s in Hp.
  assert (q / 2 ^ ulpExponent q == q * inject_Z s)%Q as Hq.
  { rewrite Hp. unfold Qdiv. now rewrite Qinv_involutive. }
  rewrite (roundHalfEven_comp _ _ Hq). rewrite Hp. reflexivity.
Qed.

(** Rounding to a double does not cross a whole number below 2^53: such
    a number is a double. *)
Lemma binary64_between (q : Q) (lo hi : Z) :
  - 2 ^ 53 < lo -> hi < 2 ^ 53 ->
  (inject_Z lo <= q)%Q -> (q <= inject_Z hi)%Q ->
  (inject_Z lo <= binary64 q)%Q /\ (binary64 q <= inject_Z hi)%Q.
Proof.
  intros Hlo Hhi Hl Hh.
  destruct (binary64_scaled q (ulpExponent_small q lo hi Hlo Hhi Hl Hh)) as [Hs ->].
  set (s := 2 ^ (- ulpExponent q)) in *.
  assert (0 < inject_Z s)%Q as Hsq by (now rewrite <- (Zlt_Qlt 0)).
  split.
  - apply Qle_shift_div_l; [exact Hsq|].
    rewrite <- inject_Z_mult, <- Zle_Qle. apply roundHalfEven_ge.
    rewrite inject_Z_mult. apply Qmult_le_compat_r; [exact Hl | now apply Qlt_le_weak].
  - apply Qle_shift_div_r; [exact Hsq|].
    rewrite <- inject_Z_mult, <- Zle_Qle. apply roundHalfEven_le.
    rewrite inject_Z_mult. apply Qmult_le_compat_r; [exact Hh | now apply Qlt_le_weak].
Qed.

(** A whole number below 2^53 is its own double. *)
Lemma binary64_integer (n : Z) :
  - 2 ^ 53 < n < 2 ^ 53 -> (binary64 (inject_Z n) == inject_Z n)%Q.
Proof.
  intros [Hlo Hhi].
  destruct (binary64_between (inject_Z n) n n Hlo Hhi) as [H1 H2]; try apply Qle_refl.
  now apply Qle_antisym.
Qed.

Lemma floorLog2_comp (q q' : Q) : (q == q')%Q -> floorLog2 q = floorLog2 q'.
Proof.
  intros H. unfold floorLog2.
  assert (Qle_bool 1 q = Qle_bool 1 q') as ->.
  { destruct (Qle_bool 1 q') eqn:E.
    - apply Qle_bool_iff. apply Qle_bool_iff in E. now rewrite H.
    - destruct (Qle_bool 1 q) eqn:E'; [|reflexivity].
      apply Qle_bool_iff in E'. rewrite H in E'. apply Qle_bool_iff in E'. congruence. }
  rewrite (Qfloor_comp _ _ H).
  assert (/ q == / q')%Q as Hinv by now rewrite H.
  now rewrite (Qceiling_comp _ _ Hinv).
Qed.

Lemma binary64_comp (q q' : Q) : (q == q')%Q -> binary64 q = binary64 q'.
Proof.
  intros H. unfold binary64.
  assert (ulpExponent q = ulpExponent q') as ->.
  { unfold ulpExponent. f_equal. f_equal. apply floorLog2_comp. now rewrite H. }
  apply Qred_complete.
  assert (q / 2 ^ ulpExponent q' == q' / 2 ^ ulpExponent q')%Q as Hq by now rewrite H.
  now rewrite (roundHalfEven_comp _ _ Hq).
Qed.

(** No integer is nearer to [r] than [roundHalfEven r]. *)
Lemma roundHalfEven_nearest (r : Q) (k : Z) :
  (Qabs (inject_Z (roundHalfEven r) - r) <= Qabs (inject_Z k - r))%Q.
Proof.
  unfold roundHalfEven.
  pose proof (Qfloor_le r) as Hle. pose proof (Qlt_floor r) as Hlt.
  set (f := Qfloor r) in *. rewrite inject_Z_plus in Hlt.
  change (inject_Z 1) with 1%Q in Hlt.
  assert (k <= f \/ f + 1 <= k) as Hk by lia.
  assert ((inject_Z k <= inject_Z f)%Q \/ (inject_Z f + 1 <= inject_Z k)%Q) as Hq.
  { destruct Hk as [H|H]; [left | right].
    - now rewrite <- Zle_Qle.
    - change 1%Q with (inject_Z 1). rewrite <- inject_Z_plus. now rewrite <- Zle_Qle. }
  clear Hk.
  assert (forall x y : Q, (- y <= x)%Q -> (x <= y)%Q -> (Qabs x <= y)%Q) as Habs.
  { intros x y H1 H2. apply Qabs_Qle_condition. now split. }
  destruct (Qcompare (r - inject_Z f) (1 # 2)) eqn:E.
  - apply Qeq_alt in E.
    destruct (Z.even f).
    + apply Qabs_case; intros Hs; apply Qabs_case; intros Hs'; destruct Hq; lra.
    + rewrite inject_Z_plus. change (inject_Z 1) with 1%Q.
      apply Qabs_case; intros Hs; apply Qabs_case; intros Hs'; destruct Hq; lra.
  - apply Qlt_alt in E.
    apply Qabs_case; intros Hs; apply Qabs_case; intros Hs'; destruct Hq; lra.
  - apply Qgt_alt in E. rewrite inject_Z_plus. change (inject_Z 1) with 1%Q.
    apply Qabs_case; intros Hs; apply Qabs_case; intros Hs'; destruct Hq; lra.
Qed.

(** Among the multiples of its last place, none is nearer to [q] than
    [binary64 q]. *)
Lemma binary64_nearest (q : Q) (k : Z) :
  (Qabs (binary64 q - q) <= Qabs (inject_Z k * 2 ^ ulpExponent q - q))%Q.
Proof.
  unfold binary64. rewrite Qred_correct.
  set (e := ulpExponent q).
  assert (0 < 2 ^ e)%Q as Hpos by (apply Qpower_0_lt; reflexivity).
  pose proof (roundHalfEven_nearest (q / 2 ^ e) k) as H.
  assert (forall n : Z,
            (Qabs (inject_Z n * 2 ^ e - q) == Qabs (inject_Z n - q / 2 ^ e) * 2 ^ e)%Q)
    as Hscale.
  { intros n. rewrite <- (Qabs_pos (2 ^ e)) at 3 by now apply Qlt_le_weak.
    rewrite <- Qabs_Qmult. apply Qabs_wd. field. intros H0. rewrite H0 in Hpos.
    now apply Qlt_irrefl in Hpos. }
  rewrite !Hscale. apply Qmult_le_compat_r; [exact H | now apply Qlt_le_weak].
Qed.

(** [binary64] is the rounding of the machine: for each of the 1001
    doubles nearest to a thousandth in [0, 1], the quotient that made it
    and its product by 100; and the quotient of every sum of up to twelve
    percentages by their number. *)
Lemma binary64_ieee :
  forallb percent_agrees (map Z.of_nat (seq 0 1001)) = true /\
  forallb (fun count =>
             forallb (fun sum => quotient_agrees sum count)
               (map Z.of_nat (seq 0 (100 * Z.to_nat count + 1))))
    (map Z.of_nat (seq 1 12)) = true.
Proof. split; vm_compute; reflexivity. Qed.

(** The double nearest to 0.595 lies below 0.595, yet its product by 100
    is rounded to the double 59.5, and [Math.round] takes that to 60. *)
Example toPercent_rounds_product :
  (binary64 0.595 < 0.595)%Q /\
  (num_mul (binary64 0.595) 100 == 59.5)%Q /\
  toPercent (binary64 0.595) = 60 /\
  Math.round (binary64 0.595 * 100) = 59.
Proof. vm_compute. repeat split. Qed.

(** ** Rounding and the emotion breakdown *)

Lemma round_inject_Z (n : Z) : Math.round (inject_Z n) = n.
Proof.
  unfold Math.round, Qfloor, Qplus, inject_Z; simpl.
  Z.div_mod_to_equations; lia.
Qed.

(** Three fifths of an integer, rounded: no tie can occur, the result is
    the integer quotient [(6 n + 5) / 10]. *)
Lemma round_three_fifths (n : Z) :
  Math.round (inject_Z n * 0.6) = (6 * n + 5) / 10.
Proof.
  unfold Math.round, Qfloor, Qplus, Qmult, inject_Z; simpl.
  Z.div_mod_to_equations; lia.
Qed.

Lemma breakdownDominant_clamp (c : Q) :
  breakdownDominant c = clamp (Math.round c) 20 95.
Proof.
  unfold breakdownDominant, clamp, Math.max, Math.min.
  destruct (Z.ltb_spec (Math.round c) 20); [lia|].
  destruct (Z.ltb_spec 95 (Math.round c)); lia.
Qed.

Lemma breakdownDominant_range (c : Q) : 20 <= breakdownDominant c <= 95.
Proof. unfold breakdownDominant, Math.max, Math.min; lia. Qed.

Lemma breakdownSecondary_quotient (d : Z) :
  breakdownSecondary d = Z.max 5 ((6 * (100 - d) + 5) / 10).
Proof. unfold breakdownSecondary, Math.max. now rewrite round_three_fifths. Qed.

(** On the whole range of the dominant share, rounding the binary64
    product gives the integer that rounding the exact product gives. *)
Lemma secondary_agrees_range :
  forallb secondary_agrees (map (fun i => 20 + Z.of_nat i) (seq 0 76)) = true.
Proof. vm_compute. reflexivity. Qed.

Lemma breakdownSecondary_ieee (d : Z) :
  20 <= d <= 95 -> breakdownSecondary_binary64 d = Some (breakdownSecondary d).
Proof.
  intros Hd.
  assert (secondary_agrees d = true) as Hagree.
  { apply (proj1 (forallb_forall _ _) secondary_agrees_range).
    apply in_map_iff. exists (Z.to_nat (d - 20)). split; [lia|].
    apply in_seq. lia. }
  unfold secondary_agrees in Hagree.
  destruct (breakdownSecondary_binary64 d) as [s|]; [|discriminate].
  apply Z.eqb_eq in Hagree. now subst.
Qed.

(** C1: for every mood name and every confidence percent [c],
    [buildEmotionBreakdown] returns exactly three entries, named after the
    dominant mood, "Secondary" and "Residual", with the percentages
    [dominant = clamp(round(c), 20, 95)],
    [secondary = max(5, round((100 - dominant) * 0.6))] and
    [residual = max(5, 100 - dominant - secondary)]; each percentage is at
    least 5 and the dominant one lies in [20, 95], whatever [c] is. *)
Theorem buildEmotionBreakdown_three_way (dominantMood : string) (c : Q) :
  exists dominant secondary residual : Z,
    map name (buildEmotionBreakdown dominantMood c)
      = [dominantMood; "Secondary"; "Residual"] /\
    map value (buildEmotionBreakdown dominantMood c)
      = [dominant; secondary; residual] /\
    dominant = clamp (Math.round c) 20 95 /\
    secondary = Z.max 5 (Math.round (inject_Z (100 - dominant) * 0.6)) /\
    residual = Z.max 5 (100 - dominant - secondary) /\
    20 <= dominant <= 95 /\ 5 <= secondary /\ 5 <= residual.
Proof.
  exists (breakdownDominant c), (breakdownSecondary (breakdownDominant c)),
    (breakdownTertiary (breakdownDominant c) (breakdownSecondary (breakdownDominant c))).
  repeat split; try reflexivity.
  - apply breakdownDominant_clamp.
  - apply breakdownDominant_range.
  - apply breakdownDominant_range.
  - unfold breakdownSecondary, Math.max; lia.
  - unfold breakdownTertiary, Math.max; lia.
Qed.

(** C10: for every mood name and every confidence percent [c], the three
    percentages of [buildEmotionBreakdown] add up to at least 100 and at
    most 105; the sum is exactly 100 whenever
    [100 - dominant - secondary >= 5]; a sum above 100 comes from the
    [max(5, ...)] floor alone, by exactly what the floor adds, and only
    for a dominant share of 89 or more, next to its upper clamp 95. *)
Theorem buildEmotionBreakdown_total (dominantMood : string) (c : Q) :
  let dominant := breakdownDominant c in
  let secondary := breakdownSecondary dominant in
  let total := totalPercentage (buildEmotionBreakdown dominantMood c) in
  100 <= total <= 105 /\
  (5 <= 100 - dominant - secondary -> total = 100) /\
  total = 100 + Z.max 0 (5 - (100 - dominant - secondary)) /\
  (100 < total <-> 89 <= dominant).
Proof.
  cbv zeta. unfold totalPercentage, buildEmotionBreakdown; simpl.
  pose proof (breakdownDominant_range c) as Hd.
  rewrite breakdownSecondary_quotient.
  set (d := breakdownDominant c) in *. clearbody d.
  unfold breakdownTertiary, Math.max.
  Z.div_mod_to_equations; lia.
Qed.

(** The inputs named by the specification, far outside [0, 100] and on
    the clamps. *)
Example buildEmotionBreakdown_extremes :
  map (fun c => map value (buildEmotionBreakdown "Joy" c))
    [-10; 0; 20; 95; 100; 150]%Q
  = [[20; 48; 32]; [20; 48; 32]; [20; 48; 32]; [95; 5; 5]; [95; 5; 5]; [95; 5; 5]].
Proof. reflexivity. Qed.

(** At the upper clamp both floors are active and the sum is 105. *)
Example buildEmotionBreakdown_total_at_clamp :
  totalPercentage (buildEmotionBreakdown "Joy" 150) = 105.
Proof. reflexivity. Qed.

(** C2: for every confidence percent [c], [inferIntensity] answers "High"
    exactly when [c >= 80], "Medium" exactly when [60 <= c < 80] and "Low"
    exactly when [c < 60]; the bands are closed on their lower bound. *)
Theorem inferIntensity_bands (c : Q) :
  (inferIntensity c = "High" <-> (80 <= c)%Q) /\
  (inferIntensity c = "Medium" <-> (60 <= c)%Q /\ (c < 80)%Q) /\
  (inferIntensity c = "Low" <-> (c < 60)%Q).
Proof.
  unfold inferIntensity, num_ge.
  destruct (Qle_bool 80 c) eqn:H80; [|destruct (Qle_bool 60 c) eqn:H60].
  - apply Qle_bool_iff in H80.
    assert (60 <= c)%Q by (eapply Qle_trans; [|exact H80]; discriminate).
    repeat split; try discriminate; auto.
    + intros [_ Hlt]. exfalso. exact (Qlt_not_le _ _ Hlt H80).
    + intros Hlt. exfalso. exact (Qlt_not_le _ _ Hlt H).
  - apply Qle_bool_iff in H60.
    assert (c < 80)%Q.
    { apply Qnot_le_lt. intros Hle. apply Qle_bool_iff in Hle. congruence. }
    repeat split; try discriminate; auto.
    + intros Hle. exfalso. exact (Qlt_not_le _ _ H Hle).
    + intros Hlt. exfalso. exact (Qlt_not_le _ _ Hlt H60).
  - assert (c < 60)%Q.
    { apply Qnot_le_lt. intros Hle. apply Qle_bool_iff in Hle. congruence. }
    assert (c < 80)%Q by (eapply Qlt_trans; [exact H|reflexivity]).
    repeat split; try discriminate; auto.
    + intros Hle. exfalso. exact (Qlt_not_le _ _ H0 Hle).
    + intros [Hle _]. exfalso. exact (Qlt_not_le _ _ H Hle).
Qed.

Example inferIntensity_boundaries :
  map inferIntensity [0; 59; 59.5; 60; 79; 79.99; 80; 81; 100]%Q
  = ["Low"; "Low"; "Low"; "Medium"; "Medium"; "Medium"; "High"; "High"; "High"].
Proof. reflexivity. Qed.

Lemma buildEmotionBreakdown_total_witness :
  totalPercentage (buildEmotionBreakdown "Joy" 50) = 100.
Proof.
  apply (proj1 (proj2 (buildEmotionBreakdown_total "Joy" 50))).
  vm_compute. discriminate.
Defined.

(** ** The mood lookup *)

Lemma getProperty_own (key : string) (n : Z) :
  moodToValue !! key = Some n -> getProperty moodToValue key = Some (Num n).
Proof. intros H. unfold getProperty. now rewrite H. Qed.

Lemma getProperty_undefined (key : string) :
  moodToValue !! key = None -> key ∉ ObjectPrototype ->
  getProperty moodToValue key = None.
Proof.
  intros Hown Hproto. unfold getProperty. rewrite Hown.
  destruct (decide (key ∈ ObjectPrototype)); [contradiction | reflexivity].
Qed.

(** The six moods of the table map to their scores, entry by entry. *)
Lemma mapAudioArc_known (arc : list ArcEntry) (scores : list Z) :
  Forall2 (fun entry n => moodToValue !! mood entry = Some n) arc scores ->
  mapAudioArcToIntensitySeries arc = map Num scores.
Proof.
  induction 1 as [|entry n arc scores Hhead _ IH]; [reflexivity|].
  simpl. rewrite (getProperty_own _ _ Hhead). simpl. now f_equal.
Qed.

(** A mood that is neither in the table nor a member of
    [Object.prototype] maps to 50. *)
Lemma mapAudioArc_default (a b : Q) (token : string) :
  moodToValue !! token = None -> token ∉ ObjectPrototype ->
  mapAudioArcToIntensitySeries [mkArcEntry a b token] = [Num 50].
Proof.
  intros Hown Hproto. simpl.
  now rewrite (getProperty_undefined _ Hown Hproto).
Qed.

Example moodToValue_table :
  map (fun token => moodToValue !! token)
    ["intense"; "energetic"; "dramatic"; "dark"; "calm"; "neutral"]
  = map Some [95; 85; 80; 70; 40; 50].
Proof. vm_compute. reflexivity. Qed.

Example mapAudioArc_intense_unknown :
  mapAudioArcToIntensitySeries
    [mkArcEntry 0 1 "intense"; mkArcEntry 1 2 "unknown"]
  = [Num 95; Num 50].
Proof. vm_compute. reflexivity. Qed.

(** The mapping is a total function: every arc has an image of the same
    length. *)
Lemma mapAudioArc_length (arc : list ArcEntry) :
  length (mapAudioArcToIntensitySeries arc) = length arc.
Proof. apply length_map. Qed.

(** C3: the mood-to-arc mapping sends an unrecognized mood to 50.  It does
    not for the mood "constructor": the lookup finds the member that the
    table inherits from [Object.prototype], which is not a number, and
    the default 50 is not taken. *)
Theorem mapAudioArc_constructor :
  mapAudioArcToIntensitySeries
    [mkArcEntry 0 1 "intense"; mkArcEntry 1 2 "constructor"]
  = [Num 95; Inherited "constructor"]
  /\ moodToValue !! "constructor" = None
  /\ mapAudioArcToIntensitySeries [mkArcEntry 1 2 "constructor"] <> [Num 50].
Proof. vm_compute. repeat split. discriminate. Qed.

(** ** Running the metrics store *)

Lemma readMetrics_run (w : World) :
  readMetrics w = (Returned (currentMetrics w), w).
Proof.
  unfold currentMetrics, readMetrics, try_catch, bind, localStorage_getItem.
  destruct (localStorage w !! METRICS_KEY) as [[| | |m]|]; reflexivity.
Qed.

(** What [readMetrics] returns is decided by the text under the key. *)
Lemma currentMetrics_lookup (w : World) :
  currentMetrics w =
    match localStorage w !! METRICS_KEY with
    | Some (TextMetrics m) => Some m
    | Some TextNull => None
    | Some TextEmpty | Some TextMalformed | None => Some zeroMetrics
    end.
Proof.
  unfold currentMetrics, readMetrics, try_catch, bind, localStorage_getItem.
  destruct (localStorage w !! METRICS_KEY) as [[| | |m]|]; reflexivity.
Qed.

Lemma currentMetrics_storage (w w' : World) :
  localStorage w' = localStorage w -> currentMetrics w' = currentMetrics w.
Proof. intros H. rewrite !currentMetrics_lookup. now rewrite H. Qed.

Lemma currentMetrics_sent (rs : list Request) (w : World) :
  currentMetrics (sent rs w) = currentMetrics w.
Proof. now apply currentMetrics_storage. Qed.

Lemma writeMetrics_run (next : StoredMetrics.t) (w : World) :
  writeMetrics next w = (Returned tt, written next w).
Proof. reflexivity. Qed.

Lemma currentMetrics_written (next : StoredMetrics.t) (w : World) :
  currentMetrics (written next w) = Some next.
Proof.
  rewrite currentMetrics_lookup. unfold written; simpl.
  now rewrite lookup_insert_eq.
Qed.

Lemma incrementConversation_run (w : World) (m : StoredMetrics.t) :
  currentMetrics w = Some m ->
  incrementConversation w = (Returned tt, written (withConversation m) w).
Proof.
  intros H. unfold incrementConversation, bind.
  rewrite readMetrics_run, H. reflexivity.
Qed.

Lemma incrementVideos_run (w : World) (m : StoredMetrics.t) :
  currentMetrics w = Some m ->
  incrementVideos w = (Returned tt, written (withVideo m) w).
Proof.
  intros H. unfold incrementVideos, bind.
  rewrite readMetrics_run, H. reflexivity.
Qed.

Lemma addAnalysisConfidence_run (c : Q) (w : World) (m : StoredMetrics.t) :
  currentMetrics w = Some m ->
  addAnalysisConfidence c w = (Returned tt, written (withSample c m) w).
Proof.
  intros H. unfold addAnalysisConfidence, bind.
  rewrite readMetrics_run, H. reflexivity.
Qed.

(** With the JSON text [null] under the key, every entry point of the
    store throws on its first member access and writes nothing. *)
Lemma incrementConversation_null (w : World) :
  currentMetrics w = None -> incrementConversation w = (Thrown TypeError, w).
Proof.
  intros H. unfold incrementConversation, bind.
  rewrite readMetrics_run, H. reflexivity.
Qed.

Lemma incrementVideos_null (w : World) :
  currentMetrics w = None -> incrementVideos w = (Thrown TypeError, w).
Proof.
  intros H. unfold incrementVideos, bind.
  rewrite readMetrics_run, H. reflexivity.
Qed.

Lemma addAnalysisConfidence_null (c : Q) (w : World) :
  currentMetrics w = None -> addAnalysisConfidence c w = (Thrown TypeError, w).
Proof.
  intros H. unfold addAnalysisConfidence, bind.
  rewrite readMetrics_run, H. reflexivity.
Qed.

Lemma getDashboardMetrics_run (w : World) (m : StoredMetrics.t) :
  currentMetrics w = Some m ->
  getDashboardMetrics w =
    (Returned
       {| DashboardMetrics.totalConversations := StoredMetrics.totalConversations m;
          DashboardMetrics.videosProcessed := StoredMetrics.videosProcessed m;
          DashboardMetrics.aiAccuracyScore :=
            if truthy_number (StoredMetrics.analyzedCount m)
            then num_div (StoredMetrics.analyzedConfidenceSum m)
                   (StoredMetrics.analyzedCount m)
            else 0%Q |}, w).
Proof.
  intros H. unfold getDashboardMetrics, bind.
  rewrite readMetrics_run, H. reflexivity.
Qed.

Lemma truthy_number_pos (x : Q) : (0 < x)%Q -> truthy_number x = true.
Proof.
  intros H. unfold truthy_number.
  destruct (Qeq_bool x 0) eqn:E; [|reflexivity].
  apply Qeq_bool_eq in E. rewrite E in H. now apply Qlt_irrefl in H.
Qed.

Lemma truthy_number_zero (x : Q) : (0 <= x)%Q -> ~ (0 < x)%Q -> truthy_number x = false.
Proof.
  intros Hle Hlt. unfold truthy_number.
  destruct (Qeq_bool x 0) eqn:E; [reflexivity|].
  exfalso. apply Hlt. apply Qle_lteq in Hle. destruct Hle as [Hle|Heq]; [exact Hle|].
  apply Qeq_bool_neq in E. exfalso. apply E. now symmetry.
Qed.

(** C5: [getDashboardMetrics] computes
    [aiAccuracyScore = analyzedConfidenceSum / analyzedCount], the
    quotient of the two numbers as the language divides them, when the
    count is positive and 0 when it is zero; from an empty store, one
    conversation event gives [totalConversations = 1], and two analysis
    samples of confidence 80 and 60 give [aiAccuracyScore = 70]. *)
Theorem getDashboardMetrics_average :
  (forall (w : World) (m : StoredMetrics.t),
      currentMetrics w = Some m ->
      (0 <= StoredMetrics.analyzedCount m)%Q ->
      exists d : DashboardMetrics.t,
        getDashboardMetrics w = (Returned d, w) /\
        DashboardMetrics.totalConversations d = StoredMetrics.totalConversations m /\
        DashboardMetrics.videosProcessed d = StoredMetrics.videosProcessed m /\
        ((0 < StoredMetrics.analyzedCount m)%Q ->
         DashboardMetrics.aiAccuracyScore d =
           num_div (StoredMetrics.analyzedConfidenceSum m)
             (StoredMetrics.analyzedCount m)) /\
        (~ (0 < StoredMetrics.analyzedCount m)%Q ->
         DashboardMetrics.aiAccuracyScore d = 0%Q)) /\
  (exists d : DashboardMetrics.t,
      fst ((incrementConversation;; getDashboardMetrics) emptyWorld) = Returned d /\
      (DashboardMetrics.totalConversations d == 1)%Q) /\
  (exists d : DashboardMetrics.t,
      fst ((addAnalysisConfidence 80;; addAnalysisConfidence 60;;
            getDashboardMetrics) emptyWorld) = Returned d /\
      (DashboardMetrics.aiAccuracyScore d == 70)%Q).
Proof.
  split; [|split].
  - intros w m Hm Hcount. eexists. split; [apply (getDashboardMetrics_run _ _ Hm)|].
    simpl. repeat split.
    + intros Hpos. now rewrite (truthy_number_pos _ Hpos).
    + intros Hzero. now rewrite (truthy_number_zero _ Hcount Hzero).
  - eexists. split; [vm_compute; reflexivity|]. reflexivity.
  - eexists. split; [vm_compute; reflexivity|]. reflexivity.
Qed.

Lemma getDashboardMetrics_average_witness :
  exists d : DashboardMetrics.t,
    getDashboardMetrics (written (withSample 80 zeroMetrics) emptyWorld)
      = (Returned d, written (withSample 80 zeroMetrics) emptyWorld) /\
    (DashboardMetrics.aiAccuracyScore d == 80)%Q.
Proof.
  destruct (proj1 getDashboardMetrics_average
              (written (withSample 80 zeroMetrics) emptyWorld)
              (withSample 80 zeroMetrics))
    as [d (Hrun & _ & _ & Hscore & _)].
  - apply currentMetrics_written.
  - vm_compute. discriminate.
  - exists d. split; [exact Hrun|].
    rewrite Hscore; vm_compute; reflexivity.
Defined.

(** The fallback of [readMetrics]: with no text, the empty text or a text
    that does not parse under the key, the dashboard shows zeros. *)
Lemma getDashboardMetrics_fallback (w : World) :
  localStorage w !! METRICS_KEY = None \/
  localStorage w !! METRICS_KEY = Some TextEmpty \/
  localStorage w !! METRICS_KEY = Some TextMalformed ->
  getDashboardMetrics w =
    (Returned {| DashboardMetrics.totalConversations := 0;
                 DashboardMetrics.videosProcessed := 0;
                 DashboardMetrics.aiAccuracyScore := 0 |}, w).
Proof.
  intros H.
  assert (currentMetrics w = Some zeroMetrics) as Hm.
  { rewrite currentMetrics_lookup. destruct H as [-> | [-> | ->]]; reflexivity. }
  rewrite (getDashboardMetrics_run _ _ Hm). reflexivity.
Qed.

(** C9: [getDashboardMetrics] is to return for every content of the
    durable record.  It does not for the JSON text [null]: the text
    parses, [readMetrics] hands the value [null] on, and the first
    member access in [getDashboardMetrics] throws a [TypeError]. *)
Theorem getDashboardMetrics_null_throws :
  let w := {| localStorage := {[ METRICS_KEY := TextNull ]};
              requests := []; dispatched := [] |} in
  getDashboardMetrics w = (Thrown TypeError, w).
Proof. vm_compute. reflexivity. Qed.

(** The same holds wherever the text [null] sits under the key. *)
Lemma getDashboardMetrics_null (w : World) :
  localStorage w !! METRICS_KEY = Some TextNull ->
  getDashboardMetrics w = (Thrown TypeError, w).
Proof.
  intros H. unfold getDashboardMetrics, bind. rewrite readMetrics_run.
  rewrite currentMetrics_lookup, H. reflexivity.
Qed.

(** ** The analysis path *)

Lemma apiClient_post_run {A} (request : Request)
  (respond : list Request -> option A) (w : World) :
  apiClient_post request respond w =
    match respond (requests w) with
    | Some data => (Returned data, sent [request] w)
    | None => (Thrown AxiosError, sent [request] w)
    end.
Proof. reflexivity. Qed.

(** C4: for every script file whose text is empty after trimming,
    [analyze] with type script fails with the validation error, and the
    world is as before: no request went out, in particular none to the
    text-analysis endpoint, and no field of the metrics record changed. *)
Theorem analyze_script_empty (backend : Backend) (file : File) (w : World) :
  trim (file_text file) = "" ->
  emotionApi_analyze backend file TypeScript w
    = (Thrown (Error "Script file is empty."), w)
  /\ requests (snd (emotionApi_analyze backend file TypeScript w)) = requests w
  /\ currentMetrics (snd (emotionApi_analyze backend file TypeScript w))
     = currentMetrics w.
Proof.
  intros Hblank.
  assert (emotionApi_analyze backend file TypeScript w
          = (Thrown (Error "Script file is empty."), w)) as Hrun.
  { unfold emotionApi_analyze, bind, ret. rewrite Hblank. reflexivity. }
  rewrite Hrun. auto.
Qed.

Lemma analyze_script_empty_witness :
  emotionApi_analyze silentBackend
    (mkFile "scene.txt" "  
	 ") TypeScript emptyWorld
  = (Thrown (Error "Script file is empty."), emptyWorld).
Proof.
  apply analyze_script_empty. vm_compute. reflexivity.
Defined.

Lemma sent_nil (w : World) : sent [] w = w.
Proof. destruct w. unfold sent; simpl. now rewrite app_nil_r. Qed.

(** [data.emotional_arc.map(...)] neither reads nor writes: it returns
    the percentages, or throws at the first element that is [null] or
    [undefined]. *)
Lemma mapScriptArc_run (arc : list ArcPoint) (w : World) :
  mapScriptArc arc w =
    (if hasNullPoint arc then Thrown TypeError else Returned (arcPercents arc), w).
Proof.
  unfold mapScriptArc.
  induction arc as [|[|confidence] rest IH]; [reflexivity | reflexivity |].
  cbn [Array_map]. unfold bind at 1. cbn [point_confidence].
  unfold bind at 1, ret at 1. unfold ret at 1. unfold bind at 1. rewrite IH.
  cbn [hasNullPoint existsb orb]. fold (hasNullPoint rest).
  now destruct (hasNullPoint rest).
Qed.

(** The tail of the video and YouTube paths: two writes, or none. *)
Lemma video_tail_run (c : Q) (r : AnalysisResult.t) (w : World) :
  (incrementVideos;; addAnalysisConfidence c;; ret r) w =
    match currentMetrics w with
    | Some m =>
        (Returned r, written (withSample c (withVideo m)) (written (withVideo m) w))
    | None => (Thrown TypeError, w)
    end.
Proof.
  unfold bind at 1. destruct (currentMetrics w) as [m|] eqn:Hm.
  - rewrite (incrementVideos_run _ _ Hm). unfold bind at 1.
    rewrite (addAnalysisConfidence_run _ _ (withVideo m)) by apply currentMetrics_written.
    reflexivity.
  - now rewrite (incrementVideos_null _ Hm).
Qed.

(** The tail of the PDF and script paths: the sample is written before
    the arc is mapped. *)
Lemma script_tail_run (data : ScriptAnalysisResponse.t) (c : Z) (w : World) :
  (addAnalysisConfidence (inject_Z c);;
   emotionalArc <- mapScriptArc (ScriptAnalysisResponse.emotional_arc data);;
   ret (scriptResult data c emotionalArc)) w =
    match currentMetrics w with
    | Some m =>
        (if hasNullPoint (ScriptAnalysisResponse.emotional_arc data)
         then Thrown TypeError
         else Returned
                (scriptResult data c
                   (arcPercents (ScriptAnalysisResponse.emotional_arc data))),
         written (withSample (inject_Z c) m) w)
    | None => (Thrown TypeError, w)
    end.
Proof.
  unfold bind at 1. destruct (currentMetrics w) as [m|] eqn:Hm.
  - rewrite (addAnalysisConfidence_run _ _ _ Hm).
    unfold bind at 1. rewrite mapScriptArc_run.
    now destruct (hasNullPoint (ScriptAnalysisResponse.emotional_arc data)).
  - now rewrite (addAnalysisConfidence_null _ _ Hm).
Qed.

(** A video or YouTube call, outcome by outcome. *)
Lemma analyze_video_run (backend : Backend) (request : AnalysisRequest) (w : World) :
  isVideoKind request = true ->
  analyze backend request w =
    match videoAnswer backend request w with
    | None => (Thrown AxiosError, sent (requestsOf request) w)
    | Some data =>
        let confidence := toPercent (nullish (VideoUploadResponse.confidence data) 0%Q) in
        match currentMetrics w with
        | Some m =>
            (Returned (videoResult data confidence),
             written (withSample (inject_Z confidence) (withVideo m))
               (written (withVideo m) (sent (requestsOf request) w)))
        | None => (Thrown TypeError, sent (requestsOf request) w)
        end
    end.
Proof.
  destruct request as [file|file|file|url]; try discriminate; intros _; simpl.
  - unfold emotionApi_analyze, uploadVideo, bind at 1. rewrite apiClient_post_run.
    destruct (video_upload backend (requests w) file) as [data|]; [|reflexivity].
    now rewrite video_tail_run, currentMetrics_sent.
  - unfold emotionApi_analyzeYouTube, analyzeYouTubeVideo, bind at 1.
    rewrite apiClient_post_run.
    destruct (video_youtube backend (requests w) url) as [data|]; [|reflexivity].
    now rewrite video_tail_run, currentMetrics_sent.
Qed.

(** A PDF or script call, outcome by outcome. *)
Lemma analyze_script_run (backend : Backend) (request : AnalysisRequest) (w : World) :
  isVideoKind request = false ->
  analyze backend request w =
    match scriptAnswer backend request w with
    | None =>
        (Thrown match requestsOf request with
                | [] => Error "Script file is empty."
                | _ :: _ => AxiosError
                end,
         sent (requestsOf request) w)
    | Some data =>
        let confidence := toPercent (ScriptAnalysisResponse.confidence data) in
        match currentMetrics w with
        | Some m =>
            (if hasNullPoint (ScriptAnalysisResponse.emotional_arc data)
             then Thrown TypeError
             else Returned
                    (scriptResult data confidence
                       (arcPercents (ScriptAnalysisResponse.emotional_arc data))),
             written (withSample (inject_Z confidence) m)
               (sent (requestsOf request) w))
        | None => (Thrown TypeError, sent (requestsOf request) w)
        end
    end.
Proof.
  destruct request as [file|file|file|url]; try discriminate; intros _; simpl.
  - unfold emotionApi_analyze, analyzeScript, bind at 1, ret at 1.
    destruct (truthy (trim (file_text file))); simpl.
    + unfold bind at 1. rewrite apiClient_post_run.
      destruct (script_analyze backend (requests w) (file_text file)) as [data|];
        [|reflexivity].
      now rewrite script_tail_run, currentMetrics_sent.
    + now rewrite sent_nil.
  - unfold emotionApi_analyze, uploadPDF, bind at 1. rewrite apiClient_post_run.
    destruct (script_upload_pdf backend (requests w) file) as [data|]; [|reflexivity].
    simpl. unfold PdfAnalysisResponse.confidence, PdfAnalysisResponse.emotional_arc.
    now rewrite script_tail_run, currentMetrics_sent.
Qed.

(** C6: on every analysis call that succeeds, [videosProcessed] grows by
    exactly one when the request is a video or a YouTube link and stays as
    it was for a PDF or a script; for every kind [analyzedCount] grows by
    one and the confidence percentage of the result is added to
    [analyzedConfidenceSum]; [totalConversations] is unchanged. *)
Theorem analyze_success_metrics (backend : Backend) (request : AnalysisRequest)
  (w w' : World) (result : AnalysisResult.t) :
  analyze backend request w = (Returned result, w') ->
  exists m : StoredMetrics.t,
    currentMetrics w = Some m /\
    currentMetrics w' =
      Some {| StoredMetrics.totalConversations := StoredMetrics.totalConversations m;
              StoredMetrics.videosProcessed :=
                if isVideoKind request
                then (StoredMetrics.videosProcessed m + 1)%Q
                else StoredMetrics.videosProcessed m;
              StoredMetrics.analyzedCount := (StoredMetrics.analyzedCount m + 1)%Q;
              StoredMetrics.analyzedConfidenceSum :=
                (StoredMetrics.analyzedConfidenceSum m
                 + inject_Z (AnalysisResult.confidence result))%Q |}.
Proof.
  intros Hrun. destruct (isVideoKind request) eqn:Hkind.
  - rewrite (analyze_video_run _ _ _ Hkind) in Hrun.
    destruct (videoAnswer backend request w) as [data|]; [|discriminate].
    cbv zeta in Hrun. destruct (currentMetrics w) as [m|]; [|discriminate].
    injection Hrun as <- <-. exists m. split; [reflexivity|].
    now rewrite currentMetrics_written.
  - rewrite (analyze_script_run _ _ _ Hkind) in Hrun.
    destruct (scriptAnswer backend request w) as [data|]; [|discriminate].
    cbv zeta in Hrun. destruct (currentMetrics w) as [m|]; [|discriminate].
    destruct (hasNullPoint (ScriptAnalysisResponse.emotional_arc data));
      [discriminate|].
    injection Hrun as <- <-. exists m. split; [reflexivity|].
    now rewrite currentMetrics_written.
Qed.

(** The four kinds on a backend that answers each of them, from a fresh
    profile: the two video kinds raise [videosProcessed], the PDF and the
    script leave it. *)
Lemma analyze_success_metrics_witness :
  (exists m : StoredMetrics.t,
      currentMetrics emptyWorld = Some m /\
      currentMetrics (snd (analyze joyBackend (VideoRequest nightClip) emptyWorld)) =
        Some {| StoredMetrics.totalConversations := StoredMetrics.totalConversations m;
                StoredMetrics.videosProcessed := (StoredMetrics.videosProcessed m + 1)%Q;
                StoredMetrics.analyzedCount := (StoredMetrics.analyzedCount m + 1)%Q;
                StoredMetrics.analyzedConfidenceSum :=
                  (StoredMetrics.analyzedConfidenceSum m + inject_Z 72)%Q |}) /\
  (exists m : StoredMetrics.t,
      currentMetrics emptyWorld = Some m /\
      currentMetrics
        (snd (analyze joyBackend (YoutubeLinkRequest "https://youtu.be/x") emptyWorld)) =
        Some {| StoredMetrics.totalConversations := StoredMetrics.totalConversations m;
                StoredMetrics.videosProcessed := (StoredMetrics.videosProcessed m + 1)%Q;
                StoredMetrics.analyzedCount := (StoredMetrics.analyzedCount m + 1)%Q;
                StoredMetrics.analyzedConfidenceSum :=
                  (StoredMetrics.analyzedConfidenceSum m + inject_Z 72)%Q |}) /\
  (exists m : StoredMetrics.t,
      currentMetrics emptyWorld = Some m /\
      currentMetrics (snd (analyze joyBackend (PdfRequest reportPdf) emptyWorld)) =
        Some {| StoredMetrics.totalConversations := StoredMetrics.totalConversations m;
                StoredMetrics.videosProcessed := StoredMetrics.videosProcessed m;
                StoredMetrics.analyzedCount := (StoredMetrics.analyzedCount m + 1)%Q;
                StoredMetrics.analyzedConfidenceSum :=
                  (StoredMetrics.analyzedConfidenceSum m + inject_Z 90)%Q |}) /\
  (exists m : StoredMetrics.t,
      currentMetrics emptyWorld = Some m /\
      currentMetrics (snd (analyze joyBackend (ScriptRequest sceneScript) emptyWorld)) =
        Some {| StoredMetrics.totalConversations := StoredMetrics.totalConversations m;
                StoredMetrics.videosProcessed := StoredMetrics.videosProcessed m;
                StoredMetrics.analyzedCount := (StoredMetrics.analyzedCount m + 1)%Q;
                StoredMetrics.analyzedConfidenceSum :=
                  (StoredMetrics.analyzedConfidenceSum m + inject_Z 90)%Q |}).
Proof.
  split; [|split; [|split]].
  - apply (analyze_success_metrics joyBackend (VideoRequest nightClip) emptyWorld
             (snd (analyze joyBackend (VideoRequest nightClip) emptyWorld))
             (videoResult tenseVideo 72)).
    vm_compute. reflexivity.
  - apply (analyze_success_metrics joyBackend (YoutubeLinkRequest "https://youtu.be/x")
             emptyWorld
             (snd (analyze joyBackend (YoutubeLinkRequest "https://youtu.be/x")
                     emptyWorld))
             (videoResult tenseVideo 72)).
    vm_compute. reflexivity.
  - apply (analyze_success_metrics joyBackend (PdfRequest reportPdf) emptyWorld
             (snd (analyze joyBackend (PdfRequest reportPdf) emptyWorld))
             (scriptResult joyAnalysis 90 [Num 85; Num 0])).
    vm_compute. reflexivity.
  - apply (analyze_success_metrics joyBackend (ScriptRequest sceneScript) emptyWorld
             (snd (analyze joyBackend (ScriptRequest sceneScript) emptyWorld))
             (scriptResult joyAnalysis 90 [Num 85; Num 0])).
    vm_compute. reflexivity.
Defined.

(** The end-to-end scenario of the specification: a PDF for which the
    backend reports the mood "Joy" at confidence 0.90. *)
Example analyze_pdf_joy :
  exists (result : AnalysisResult.t) (w' : World),
    analyze joyBackend (PdfRequest reportPdf) emptyWorld = (Returned result, w') /\
    AnalysisResult.intensity result = "High" /\
    AnalysisResult.confidence result = 90 /\
    AnalysisResult.emotionalArc result = [Num 85; Num 0] /\
    map (fun e => (name e, value e)) (AnalysisResult.emotions result)
      = [("Joy", 90); ("Secondary", 6); ("Residual", 5)] /\
    requests w' = [PostScriptUploadPdf reportPdf] /\
    dispatched w' = [METRICS_EVENT].
Proof. do 2 eexists. split; [vm_compute; reflexivity|]. now vm_compute. Qed.

(** A video: both counters move, and the arc goes through the mood
    table. *)
Example analyze_video_tense :
  exists (result : AnalysisResult.t) (w' : World),
    analyze joyBackend (VideoRequest nightClip) emptyWorld = (Returned result, w') /\
    AnalysisResult.intensity result = "Medium" /\
    AnalysisResult.confidence result = 72 /\
    AnalysisResult.emotionalArc result = [Num 40; Num 95; Num 50] /\
    currentMetrics w' = Some (withSample 72 (withVideo zeroMetrics)) /\
    dispatched w' = [METRICS_EVENT; METRICS_EVENT].
Proof. do 2 eexists. split; [vm_compute; reflexivity|]. now vm_compute. Qed.

(** ** The chat path *)

Lemma incrementConversation_requests (w : World) :
  requests (snd (incrementConversation w)) = requests w.
Proof.
  destruct (currentMetrics w) as [m|] eqn:Hm.
  - now rewrite (incrementConversation_run _ _ Hm).
  - now rewrite (incrementConversation_null _ Hm).
Qed.

(** [sendChat] issues exactly one request, the body it built. *)
Lemma sendChat_requests (backend : Backend) (payload : ChatPayload.t) (w : World) :
  requests (snd (sendChat backend payload w)) = requests w ++ [chatBody payload].
Proof.
  unfold sendChat, chatBody.
  destruct (ChatPayload.mode payload);
    unfold bind at 1; rewrite apiClient_post_run.
  - destruct (chat backend (requests w) (chatRequest payload)) as [data|];
      [|reflexivity].
    unfold bind, ret.
    pose proof (incrementConversation_requests (sent [PostChat (chatRequest payload)] w)) as H.
    destruct (incrementConversation _) as [[[]|e] w1]; exact H.
  - destruct (rag_query backend (requests w) (ragRequest payload)) as [answer|];
      [|reflexivity].
    unfold bind, ret.
    pose proof (incrementConversation_requests (sent [PostRagQuery (ragRequest payload)] w)) as H.
    destruct (incrementConversation _) as [[[]|e] w1]; exact H.
Qed.

Lemma credential_chatBody (payload : ChatPayload.t) :
  credential (chatBody payload) = ChatPayload.api_key payload.
Proof. unfold chatBody. now destruct (ChatPayload.mode payload). Qed.

(** The requests of [chatbotApi.sendMessage]: the upload of the context
    document, if there is one to send, then the chat body. *)
Lemma sendMessage_requests (backend : Backend) (input : SendMessageInput.t) (w : World) :
  exists new : list Request,
    requests (snd (chatbotApi_sendMessage backend input w)) = requests w ++ new /\
    Forall (fun request =>
              credential request = None \/
              credential request = SendMessageInput.apiKey input) new.
Proof.
  unfold chatbotApi_sendMessage, bind at 1.
  destruct (SendMessageInput.mode input) eqn:Hmode;
    [|destruct (SendMessageInput.pdfContext input) as [file|] eqn:Hfile].
  - exists [chatBody (chatPayload input)]. unfold ret at 1; simpl.
    rewrite sendChat_requests. split; [reflexivity|].
    constructor; [right; apply credential_chatBody | constructor].
  - unfold uploadChatPDF. rewrite apiClient_post_run.
    destruct (upload_pdf backend (requests w) file) as [[]|].
    + exists [PostUploadPdf file; chatBody (chatPayload input)].
      rewrite sendChat_requests. simpl. rewrite <- app_assoc. split; [reflexivity|].
      constructor; [now left|].
      constructor; [right; apply credential_chatBody | constructor].
    + exists [PostUploadPdf file]. split; [reflexivity|].
      constructor; [now left | constructor].
  - exists [chatBody (chatPayload input)]. unfold ret at 1; simpl.
    rewrite sendChat_requests. split; [reflexivity|].
    constructor; [right; apply credential_chatBody | constructor].
Qed.

(** C7: for every payload that keeps the invariant of a chat request (a
    credential is present only when the provider is external), the one
    body [sendChat] builds, on the chat branch and on the contextual
    branch, contains a credential only when the provider is external,
    and none when the provider is local; the credential it contains is
    the one of the payload, as it is.  [handleSendMessage], the caller of
    the chat path, keeps the invariant: it passes a key only when the
    provider is external, so no request sent from the panel carries a
    credential unless the provider is external. *)
Theorem chat_credential_forwarding :
  (forall (backend : Backend) (payload : ChatPayload.t) (w : World),
      (is_Some (ChatPayload.api_key payload) ->
       ChatPayload.provider payload = ProviderExternal) ->
      exists body : Request,
        requests (snd (sendChat backend payload w)) = requests w ++ [body] /\
        body = match ChatPayload.mode payload with
               | ModePdf => PostRagQuery (ragRequest payload)
               | ModeGeneral => PostChat (chatRequest payload)
               end /\
        credential body = ChatPayload.api_key payload /\
        (is_Some (credential body) ->
         ChatPayload.provider payload = ProviderExternal) /\
        (ChatPayload.provider payload = ProviderLocal -> credential body = None)) /\
  (forall st : ChatbotState,
      is_Some (ChatPayload.api_key (chatPayload (sendMessageInput st))) ->
      ChatPayload.provider (chatPayload (sendMessageInput st)) = ProviderExternal) /\
  (forall (backend : Backend) (st : ChatbotState) (w : World),
      exists new : list Request,
        requests (snd (handleSendMessage backend st w)) = requests w ++ new /\
        Forall (fun request =>
                  is_Some (credential request) -> llmProvider st = ProviderExternal)
               new /\
        (llmProvider st = ProviderLocal ->
         Forall (fun request => credential request = None) new)).
Proof.
  split; [|split].
  - intros backend payload w Hinv. exists (chatBody payload).
    split; [apply sendChat_requests|]. split; [reflexivity|].
    rewrite credential_chatBody. split; [reflexivity|]. split; [exact Hinv|].
    intros Hlocal. destruct (ChatPayload.api_key payload) as [key|]; [|reflexivity].
    rewrite Hinv in Hlocal by (now exists key). discriminate.
  - intros st [key Hkey]. simpl in *.
    destruct (llmProvider st); [discriminate | reflexivity].
  - intros backend st w. unfold handleSendMessage.
    destruct (negb (truthy (trim (input st)))).
    + exists []. simpl. rewrite app_nil_r. repeat split; constructor.
    + destruct (sendMessage_requests backend (sendMessageInput st) w)
        as (new & Hnew & Hcred).
      exists new. split; [|split].
      * unfold try_catch, bind, ret.
        destruct (chatbotApi_sendMessage backend (sendMessageInput st) w)
          as [[response|e] w1]; exact Hnew.
      * eapply Forall_impl; [exact Hcred|].
        intros request [Hnone | Hkey] [key Hsome].
        -- congruence.
        -- rewrite Hkey in Hsome. simpl in Hsome.
           destruct (llmProvider st); [discriminate | reflexivity].
      * intros Hlocal. eapply Forall_impl; [exact Hcred|].
        intros request [Hnone | Hkey]; [exact Hnone|].
        rewrite Hkey. simpl. now rewrite Hlocal.
Qed.

(** The panel set to the local provider with a key left in its key
    field, and the same panel switched to the external provider: the
    body of the first carries no credential, the body of the second the
    key. *)
Lemma chat_credential_forwarding_witness :
  Forall (fun request => credential request = None)
    (requests (snd (handleSendMessage joyBackend localPanel emptyWorld))) /\
  (exists body : Request,
      requests (snd (sendChat joyBackend (chatPayload (sendMessageInput localPanel))
                       emptyWorld)) = [body] /\
      credential body = None) /\
  (exists body : Request,
      requests (snd (sendChat joyBackend (chatPayload (sendMessageInput externalPanel))
                       emptyWorld)) = [body] /\
      credential body = Some "sk-123").
Proof.
  destruct chat_credential_forwarding as (Hsend & Hpanel & Hhandle).
  split; [|split].
  - destruct (Hhandle joyBackend localPanel emptyWorld) as (new & Hnew & _ & Hlocal).
    rewrite Hnew. apply Hlocal. reflexivity.
  - destruct (Hsend joyBackend (chatPayload (sendMessageInput localPanel)) emptyWorld
                (Hpanel localPanel))
      as (body & Hreq & _ & _ & _ & Hlocal).
    exists body. split; [exact Hreq | apply Hlocal; reflexivity].
  - destruct (Hsend joyBackend (chatPayload (sendMessageInput externalPanel)) emptyWorld
                (Hpanel externalPanel))
      as (body & Hreq & _ & Hkey & _).
    exists body. split; [exact Hreq | exact Hkey].
Defined.

Example handleSendMessage_localPanel :
  requests (snd (handleSendMessage joyBackend localPanel emptyWorld))
  = [PostUploadPdf reportPdf;
     PostRagQuery {| BackendRagRequest.question := "What is on page 2?";
                     BackendRagRequest.mode := Solve;
                     BackendRagRequest.llm_type := LlmLocal;
                     BackendRagRequest.api_key := None |}].
Proof. vm_compute. reflexivity. Qed.






(** A chat call that fails leaves the metrics record as it was, on both
    branches, with or without a document. *)
Lemma sendMessage_failed_metrics (backend : Backend) (input : SendMessageInput.t)
  (w w' : World) (e : Exn) :
  chatbotApi_sendMessage backend input w = (Thrown e, w') ->
  localStorage w' = localStorage w.
Proof.
  unfold chatbotApi_sendMessage, bind at 1.
  assert (forall w1, localStorage w1 = localStorage w ->
            sendChat backend (chatPayload input) w1 = (Thrown e, w') ->
            localStorage w' = localStorage w) as Hchat.
  { intros w1 Hw1 Hrun. unfold sendChat in Hrun.
    destruct (currentMetrics w1) as [m|] eqn:Hm.
    - destruct (ChatPayload.mode (chatPayload input));
        unfold bind at 1 in Hrun; rewrite apiClient_post_run in Hrun.
      + destruct (chat backend _ _); [|now injection Hrun as _ <-].
        unfold bind at 1 in Hrun.
        rewrite (incrementConversation_run _ m) in Hrun
          by now rewrite currentMetrics_sent.
        discriminate.
      + destruct (rag_query backend _ _); [|now injection Hrun as _ <-].
        unfold bind at 1 in Hrun.
        rewrite (incrementConversation_run _ m) in Hrun
          by now rewrite currentMetrics_sent.
        discriminate.
    - destruct (ChatPayload.mode (chatPayload input));
        unfold bind at 1 in Hrun; rewrite apiClient_post_run in Hrun.
      + destruct (chat backend _ _); [|now injection Hrun as _ <-].
        unfold bind at 1 in Hrun.
        rewrite incrementConversation_null in Hrun
          by now rewrite currentMetrics_sent.
        now injection Hrun as _ <-.
      + destruct (rag_query backend _ _); [|now injection Hrun as _ <-].
        unfold bind at 1 in Hrun.
        rewrite incrementConversation_null in Hrun
          by now rewrite currentMetrics_sent.
        now injection Hrun as _ <-. }
  destruct (SendMessageInput.mode input);
    [|destruct (SendMessageInput.pdfContext input) as [file|]].
  - apply Hchat. reflexivity.
  - unfold uploadChatPDF. rewrite apiClient_post_run.
    destruct (upload_pdf backend (requests w) file) as [[]|].
    + apply Hchat. reflexivity.
    + intros Hrun. now injection Hrun as _ <-.
  - apply Hchat. reflexivity.
Qed.

(** * Further properties *)

(** ** Sequences of store events *)

Lemma recordEvent_run (event : StoreEvent) (w : World) (m : StoredMetrics.t) :
  currentMetrics w = Some m ->
  exists m' : StoredMetrics.t,
    recordEvent event w = (Returned tt, written m' w) /\
    (StoredMetrics.totalConversations m'
     == StoredMetrics.totalConversations m
        + inject_Z (countOf isConversation [event]))%Q /\
    (StoredMetrics.videosProcessed m'
     == StoredMetrics.videosProcessed m + inject_Z (countOf isVideo [event]))%Q /\
    (StoredMetrics.analyzedCount m'
     == StoredMetrics.analyzedCount m + inject_Z (countOf isSample [event]))%Q /\
    (StoredMetrics.analyzedConfidenceSum m'
     == StoredMetrics.analyzedConfidenceSum m + Qsum (samplesOf [event]))%Q.
Proof.
  intros Hm. destruct event as [| |c]; simpl.
  - exists (withConversation m). split; [now apply incrementConversation_run|].
    simpl. rewrite ?Z.add_0_r.
    change (inject_Z 1) with 1%Q. change (inject_Z 0) with 0%Q.
    repeat split; ring.
  - exists (withVideo m). split; [now apply incrementVideos_run|].
    simpl. rewrite ?Z.add_0_r.
    change (inject_Z 1) with 1%Q. change (inject_Z 0) with 0%Q.
    repeat split; ring.
  - exists (withSample c m). split; [now apply addAnalysisConfidence_run|].
    simpl. rewrite ?Z.add_0_r.
    change (inject_Z 1) with 1%Q. change (inject_Z 0) with 0%Q.
    repeat split; ring.
Qed.

Lemma written_frame (next : StoredMetrics.t) (w : World) (key : string) :
  key <> METRICS_KEY ->
  localStorage (written next w) !! key = localStorage w !! key.
Proof. intros Hkey. unfold written; simpl. now rewrite lookup_insert_ne. Qed.

Lemma countOf_cons (p : StoreEvent -> bool) (event : StoreEvent) (later : list StoreEvent) :
  countOf p (event :: later) = countOf p [event] + countOf p later.
Proof. simpl. lia. Qed.

Lemma samplesOf_cons (event : StoreEvent) (later : list StoreEvent) :
  (Qsum (samplesOf (event :: later)) == Qsum (samplesOf [event]) + Qsum (samplesOf later))%Q.
Proof. destruct event; simpl; ring. Qed.

(** X1: from a readable record, any sequence of store events runs to the
    end; the record read afterwards has each counter raised by the number
    of events of its kind and the confidence sum raised by the sum of the
    samples; one notification is sent per event, no request is issued, no
    other storage key changes, and after at least one event the key holds
    a well-formed record. *)
Theorem recordEvents_totals (events : list StoreEvent) (w : World) (m : StoredMetrics.t) :
  currentMetrics w = Some m ->
  exists (w' : World) (m' : StoredMetrics.t),
    recordEvents events w = (Returned tt, w') /\
    currentMetrics w' = Some m' /\
    (StoredMetrics.totalConversations m'
     == StoredMetrics.totalConversations m + inject_Z (countOf isConversation events))%Q /\
    (StoredMetrics.videosProcessed m'
     == StoredMetrics.videosProcessed m + inject_Z (countOf isVideo events))%Q /\
    (StoredMetrics.analyzedCount m'
     == StoredMetrics.analyzedCount m + inject_Z (countOf isSample events))%Q /\
    (StoredMetrics.analyzedConfidenceSum m'
     == StoredMetrics.analyzedConfidenceSum m + Qsum (samplesOf events))%Q /\
    requests w' = requests w /\
    dispatched w' = dispatched w ++ repeat METRICS_EVENT (length events) /\
    (forall key : string, key <> METRICS_KEY ->
       localStorage w' !! key = localStorage w !! key) /\
    (events <> [] -> localStorage w' !! METRICS_KEY = Some (TextMetrics m')).
Proof.
  revert w m. induction events as [|event later IH]; intros w m Hm.
  - exists w, m. simpl. rewrite app_nil_r.
    repeat split; try reflexivity; try ring; [exact Hm | congruence].
  - destruct (recordEvent_run event w m Hm) as (m1 & Hrun & Ht & Hv & Hc & Hs).
    destruct (IH (written m1 w) m1 (currentMetrics_written _ _))
      as (w' & m' & Hrun' & Hm' & Ht' & Hv' & Hc' & Hs' & Hreq & Hdisp & Hframe & Hkey).
    exists w', m'. split.
    { simpl. unfold bind. rewrite Hrun. exact Hrun'. }
    split; [exact Hm'|].
    rewrite (countOf_cons isConversation), (countOf_cons isVideo),
      (countOf_cons isSample), samplesOf_cons, !inject_Z_plus.
    rewrite Ht', Hv', Hc', Hs', Ht, Hv, Hc, Hs.
    repeat split; try ring.
    + exact Hreq.
    + rewrite Hdisp. simpl. now rewrite <- app_assoc.
    + intros key Hne. rewrite (Hframe key Hne). now apply written_frame.
    + intros _. destruct later as [|next later'].
      * simpl in Hrun'. injection Hrun' as <-.
        rewrite currentMetrics_written in Hm'. injection Hm' as <-.
        unfold written; simpl. apply lookup_insert_eq.
      * apply Hkey. discriminate.
Qed.

Lemma recordEvents_totals_witness :
  exists w' : World,
    recordEvents [ConversationEvent; SampleEvent 80; VideoEvent; SampleEvent 60]
      emptyWorld = (Returned tt, w') /\
    dispatched w' = [METRICS_EVENT; METRICS_EVENT; METRICS_EVENT; METRICS_EVENT].
Proof.
  destruct (recordEvents_totals
              [ConversationEvent; SampleEvent 80; VideoEvent; SampleEvent 60]
              emptyWorld zeroMetrics eq_refl)
    as (w' & m' & Hrun & _ & _ & _ & _ & _ & _ & Hdisp & _).
  exists w'. split; [exact Hrun | exact Hdisp].
Defined.

(** The record after a sequence of events, counter by counter. *)
Lemma recordEvents_counts (events : list StoreEvent) (w : World) (m : StoredMetrics.t) :
  currentMetrics w = Some m ->
  exists (w' : World) (m' : StoredMetrics.t),
    recordEvents events w = (Returned tt, w') /\
    currentMetrics w' = Some m' /\
    (StoredMetrics.totalConversations m'
     == StoredMetrics.totalConversations m + inject_Z (countOf isConversation events))%Q /\
    (StoredMetrics.videosProcessed m'
     == StoredMetrics.videosProcessed m + inject_Z (countOf isVideo events))%Q /\
    (StoredMetrics.analyzedCount m'
     == StoredMetrics.analyzedCount m + inject_Z (countOf isSample events))%Q /\
    (StoredMetrics.analyzedConfidenceSum m'
     == StoredMetrics.analyzedConfidenceSum m + Qsum (samplesOf events))%Q.
Proof.
  revert w m. induction events as [|event later IH]; intros w m Hm.
  - exists w, m. simpl. repeat split; try reflexivity; try ring. exact Hm.
  - destruct (recordEvent_run event w m Hm) as (m1 & Hrun & Ht & Hv & Hc & Hs).
    destruct (IH (written m1 w) m1 (currentMetrics_written _ _))
      as (w' & m' & Hrun' & Hm' & Ht' & Hv' & Hc' & Hs').
    exists w', m'. split.
    { simpl. unfold bind. rewrite Hrun. exact Hrun'. }
    split; [exact Hm'|].
    rewrite (countOf_cons isConversation), (countOf_cons isVideo),
      (countOf_cons isSample), samplesOf_cons, !inject_Z_plus.
    rewrite Ht', Hv', Hc', Hs', Ht, Hv, Hc, Hs.
    repeat split; ring.
Qed.

Lemma countOf_isSample (events : list StoreEvent) :
  countOf isSample events = Z.of_nat (length (samplesOf events)).
Proof.
  induction events as [|[| |c] later IH]; simpl in *; try lia.
Qed.

Lemma countOf_length (p : StoreEvent -> bool) (events : list StoreEvent) :
  0 <= countOf p events <= Z.of_nat (length events).
Proof.
  induction events as [|event later IH]; simpl; [lia|].
  destruct (p event); lia.
Qed.

(** The sum of whole percentages is a whole number, at most 100 a
    sample. *)
Lemma samples_total (events : list StoreEvent) :
  Forall wholePercent events ->
  exists total : Z,
    (Qsum (samplesOf events) == inject_Z total)%Q /\
    0 <= total <= 100 * countOf isSample events.
Proof.
  induction 1 as [|event later Hevent _ (total & Hsum & Hrange)].
  - exists 0. split; [reflexivity | simpl; lia].
  - destruct event as [| |c].
    + exists total. split; [exact Hsum | simpl; lia].
    + exists total. split; [exact Hsum | simpl; lia].
    + destruct Hevent as (n & -> & Hn). exists (n + total). split.
      * cbn [samplesOf Qsum fold_right]. fold (Qsum (samplesOf later)).
        now rewrite Hsum, inject_Z_plus.
      * cbn [countOf isSample]. lia.
Qed.

Lemma num_div_comp (a a' b b' : Q) :
  (a == a')%Q -> (b == b')%Q -> num_div a b = num_div a' b'.
Proof. intros Ha Hb. apply binary64_comp. now rewrite Ha, Hb. Qed.

(** X2: from an empty store, after fewer than 2^46 events whose samples
    are whole percentages, the counters are the numbers of events of
    their kind and the confidence sum is a whole number below 2^53, so
    that every sum the store computed is exact on doubles; the dashboard
    shows the number of conversation events, the number of video events,
    and as score the double nearest to the arithmetic mean of the
    samples, which lies between 0 and 100, or 0 when no sample was
    recorded. *)
Theorem dashboard_after_events (events : list StoreEvent) :
  Forall wholePercent events ->
  Z.of_nat (length events) < 2 ^ 46 ->
  exists (d : DashboardMetrics.t) (total : Z),
    fst ((recordEvents events;; getDashboardMetrics) emptyWorld) = Returned d /\
    (DashboardMetrics.totalConversations d
     == inject_Z (countOf isConversation events))%Q /\
    (DashboardMetrics.videosProcessed d == inject_Z (countOf isVideo events))%Q /\
    (Qsum (samplesOf events) == inject_Z total)%Q /\
    0 <= total < 2 ^ 53 /\
    (samplesOf events <> [] ->
     DashboardMetrics.aiAccuracyScore d
     = binary64 (inject_Z total / inject_Z (Z.of_nat (length (samplesOf events))))) /\
    (samplesOf events = [] -> DashboardMetrics.aiAccuracyScore d = 0%Q) /\
    (0 <= DashboardMetrics.aiAccuracyScore d)%Q /\
    (DashboardMetrics.aiAccuracyScore d <= 100)%Q.
Proof.
  intros Hwhole Hfew.
  destruct (recordEvents_counts events emptyWorld zeroMetrics eq_refl)
    as (w' & m' & Hrun & Hm' & Ht & Hv & Hc & Hs).
  destruct (samples_total events Hwhole) as (total & Hsum & Htotal).
  pose proof (countOf_length isSample events) as Hcount.
  rewrite countOf_isSample in Hc, Htotal, Hcount.
  simpl in Ht, Hv, Hc, Hs. rewrite Qplus_0_l in Ht, Hv, Hc, Hs.
  set (n := Z.of_nat (length (samplesOf events))) in *.
  assert (samplesOf events <> [] ->
          (0 < inject_Z n)%Q /\
          truthy_number (StoredMetrics.analyzedCount m') = true /\
          num_div (StoredMetrics.analyzedConfidenceSum m')
            (StoredMetrics.analyzedCount m')
          = binary64 (inject_Z total / inject_Z n)) as Hsome.
  { intros Hne.
    assert (0 < inject_Z n)%Q as Hpos.
    { change 0%Q with (inject_Z 0). rewrite <- Zlt_Qlt. subst n.
      destruct (samplesOf events); [congruence | simpl; lia]. }
    split; [exact Hpos|]. split.
    - apply truthy_number_pos. now rewrite Hc.
    - apply num_div_comp; [now rewrite Hs, Hsum | exact Hc]. }
  assert (samplesOf events = [] ->
          truthy_number (StoredMetrics.analyzedCount m') = false) as Hnone.
  { intros Hnil. unfold truthy_number. apply negb_false_iff, Qeq_bool_iff.
    rewrite Hc. subst n. now rewrite Hnil. }
  eexists. exists total. split.
  { unfold bind. rewrite Hrun. now rewrite (getDashboardMetrics_run _ _ Hm'). }
  cbn [DashboardMetrics.totalConversations DashboardMetrics.videosProcessed
       DashboardMetrics.aiAccuracyScore].
  split; [exact Ht|]. split; [exact Hv|]. split; [exact Hsum|].
  split; [lia|].
  split; [|split].
  - intros Hne. destruct (Hsome Hne) as (_ & -> & Hdiv). exact Hdiv.
  - intros Hnil. now rewrite (Hnone Hnil).
  - destruct (samplesOf events) as [|c rest] eqn:Hsamples.
    + rewrite Hnone by reflexivity. split; discriminate.
    + destruct Hsome as (Hpos & -> & ->); [discriminate|].
      apply (binary64_between _ 0 100); try lia.
      * apply Qle_shift_div_l; [exact Hpos|]. rewrite Qmult_0_l.
        change 0%Q with (inject_Z 0). rewrite <- Zle_Qle. lia.
      * apply Qle_shift_div_r; [exact Hpos|].
        rewrite <- inject_Z_mult, <- Zle_Qle. lia.
Qed.

(** Three samples of 50, 50 and 0: the store holds 100 and 3, and the
    score is the double nearest to a third of 100, not the third. *)
Lemma dashboard_after_events_witness :
  exists d : DashboardMetrics.t,
    fst ((recordEvents [SampleEvent 50; VideoEvent; SampleEvent 50; SampleEvent 0];;
          getDashboardMetrics) emptyWorld) = Returned d /\
    DashboardMetrics.aiAccuracyScore d = binary64 (100 / 3) /\
    ~ (DashboardMetrics.aiAccuracyScore d == 100 / 3)%Q.
Proof.
  destruct (dashboard_after_events
              [SampleEvent 50; VideoEvent; SampleEvent 50; SampleEvent 0])
    as (d & total & Hrun & _ & _ & Hsum & _ & Hscore & _).
  - repeat constructor; eexists; (split; [reflexivity | lia]).
  - vm_compute. reflexivity.
  - exists d. split; [exact Hrun|].
    assert (total = 100) as ->.
    { apply inject_Z_injective. rewrite <- Hsum. reflexivity. }
    rewrite Hscore by discriminate.
    split; [reflexivity|]. vm_compute. discriminate.
Defined.

(** X3: [getDashboardMetrics] only reads: whether it returns or throws,
    storage, request log and notifications are as before. *)
Theorem getDashboardMetrics_reads_only (w : World) :
  snd (getDashboardMetrics w) = w.
Proof.
  destruct (currentMetrics w) as [m|] eqn:Hm.
  - now rewrite (getDashboardMetrics_run _ _ Hm).
  - unfold getDashboardMetrics, bind. rewrite readMetrics_run, Hm. reflexivity.
Qed.


(** X4: when the text under the metrics key is empty or does not parse,
    the next event does not fail: it overwrites the text with a
    well-formed record that counts this one event from zero. *)
Theorem recordEvent_replaces_unreadable (event : StoreEvent) (w : World) :
  localStorage w !! METRICS_KEY = Some TextMalformed \/
  localStorage w !! METRICS_KEY = Some TextEmpty ->
  exists m' : StoredMetrics.t,
    recordEvent event w = (Returned tt, written m' w) /\
    localStorage (written m' w) !! METRICS_KEY = Some (TextMetrics m') /\
    (StoredMetrics.totalConversations m' == inject_Z (countOf isConversation [event]))%Q /\
    (StoredMetrics.videosProcessed m' == inject_Z (countOf isVideo [event]))%Q /\
    (StoredMetrics.analyzedCount m' == inject_Z (countOf isSample [event]))%Q /\
    (StoredMetrics.analyzedConfidenceSum m' == Qsum (samplesOf [event]))%Q.
Proof.
  intros Htext.
  assert (currentMetrics w = Some zeroMetrics) as Hm.
  { rewrite currentMetrics_lookup. now destruct Htext as [-> | ->]. }
  destruct (recordEvent_run event w zeroMetrics Hm) as (m' & Hrun & Ht & Hv & Hc & Hs).
  exists m'. split; [exact Hrun|]. split.
  { unfold written; simpl. apply lookup_insert_eq. }
  simpl in Ht, Hv, Hc, Hs. rewrite Qplus_0_l in Ht, Hv, Hc, Hs. auto.
Qed.

Lemma recordEvent_replaces_unreadable_witness :
  exists m' : StoredMetrics.t,
    recordEvent VideoEvent
      {| localStorage := {[ METRICS_KEY := TextMalformed ]};
         requests := []; dispatched := [] |}
    = (Returned tt,
       written m' {| localStorage := {[ METRICS_KEY := TextMalformed ]};
                     requests := []; dispatched := [] |}) /\
    (StoredMetrics.videosProcessed m' == 1)%Q.
Proof.
  destruct (recordEvent_replaces_unreadable VideoEvent
              {| localStorage := {[ METRICS_KEY := TextMalformed ]};
                 requests := []; dispatched := [] |})
    as (m' & Hrun & _ & _ & Hv & _).
  - left. reflexivity.
  - exists m'. split; [exact Hrun | exact Hv].
Defined.

Lemma sendChat_returned_readable (backend : Backend) (payload : ChatPayload.t)
  (w w' : World) (r : ChatResponse.t) :
  sendChat backend payload w = (Returned r, w') ->
  exists m : StoredMetrics.t, currentMetrics w = Some m.
Proof.
  intros Hrun. destruct (currentMetrics w) as [m|] eqn:Hm; [now exists m|].
  exfalso. unfold sendChat in Hrun.
  destruct (ChatPayload.mode payload);
    unfold bind at 1 in Hrun; rewrite apiClient_post_run in Hrun.
  - destruct (chat backend _ _); [|discriminate].
    unfold bind at 1 in Hrun.
    rewrite incrementConversation_null in Hrun by now rewrite currentMetrics_sent.
    discriminate.
  - destruct (rag_query backend _ _); [|discriminate].
    unfold bind at 1 in Hrun.
    rewrite incrementConversation_null in Hrun by now rewrite currentMetrics_sent.
    discriminate.
Qed.

Lemma sendMessage_returned_readable (backend : Backend) (input : SendMessageInput.t)
  (w w' : World) (r : ChatResponse.t) :
  chatbotApi_sendMessage backend input w = (Returned r, w') ->
  exists m : StoredMetrics.t, currentMetrics w = Some m.
Proof.
  unfold chatbotApi_sendMessage, bind at 1.
  destruct (SendMessageInput.mode input);
    [|destruct (SendMessageInput.pdfContext input) as [file|]].
  - apply sendChat_returned_readable.
  - unfold uploadChatPDF. rewrite apiClient_post_run.
    destruct (upload_pdf backend (requests w) file) as [[]|]; [|discriminate].
    intros Hrun. apply sendChat_returned_readable in Hrun as [m Hm].
    exists m. now rewrite currentMetrics_sent in Hm.
  - apply sendChat_returned_readable.
Qed.

(** ** Analysis calls, outcome by outcome *)

(** X7: an analysis call issues exactly one request, to the endpoint of
    its kind, whether it then succeeds or fails; a script is sent with
    its text as read, not trimmed, and a script whose text is blank
    issues none. *)
Theorem analyze_requests (backend : Backend) (request : AnalysisRequest) (w : World) :
  requests (snd (analyze backend request w)) = requests w ++ requestsOf request.
Proof.
  destruct (isVideoKind request) eqn:Hkind.
  - rewrite (analyze_video_run _ _ _ Hkind).
    destruct (videoAnswer backend request w) as [data|]; [|reflexivity].
    cbv zeta. now destruct (currentMetrics w).
  - rewrite (analyze_script_run _ _ _ Hkind).
    destruct (scriptAnswer backend request w) as [data|]; [|reflexivity].
    cbv zeta. now destruct (currentMetrics w).
Qed.

Lemma scriptAnswer_video (backend : Backend) (request : AnalysisRequest) (w : World) :
  isVideoKind request = true -> scriptAnswer backend request w = None.
Proof. now destruct request. Qed.

(** X6: an analysis call that fails has written nothing and sent no
    notification, with one exception: when the backend answered a PDF or
    a script with an arc that holds [null] or [undefined], and the
    metrics record was readable, the call throws a [TypeError] after the
    sample has been recorded and its notification sent.  In no failing
    call does the video counter move. *)
Theorem analyze_failure_effect (backend : Backend) (request : AnalysisRequest)
  (w w' : World) (e : Exn) :
  analyze backend request w = (Thrown e, w') ->
  match scriptAnswer backend request w, currentMetrics w with
  | Some data, Some m =>
      e = TypeError /\
      hasNullPoint (ScriptAnalysisResponse.emotional_arc data) = true /\
      w' = written
             (withSample
                (inject_Z (toPercent (ScriptAnalysisResponse.confidence data))) m)
             (sent (requestsOf request) w)
  | _, _ => w' = sent (requestsOf request) w
  end /\
  option_map StoredMetrics.videosProcessed (currentMetrics w')
  = option_map StoredMetrics.videosProcessed (currentMetrics w).
Proof.
  intros Hrun. destruct (isVideoKind request) eqn:Hkind.
  - rewrite (scriptAnswer_video _ _ _ Hkind).
    rewrite (analyze_video_run _ _ _ Hkind) in Hrun.
    assert (w' = sent (requestsOf request) w) as ->.
    { destruct (videoAnswer backend request w) as [data|];
        [|now injection Hrun as _ <-].
      cbv zeta in Hrun. destruct (currentMetrics w) as [m|]; [discriminate|].
      now injection Hrun as _ <-. }
    split; [reflexivity | now rewrite currentMetrics_sent].
  - rewrite (analyze_script_run _ _ _ Hkind) in Hrun.
    destruct (scriptAnswer backend request w) as [data|].
    + cbv zeta in Hrun. destruct (currentMetrics w) as [m|] eqn:Hm.
      * destruct (hasNullPoint (ScriptAnalysisResponse.emotional_arc data));
          [|discriminate].
        injection Hrun as <- <-. split; [now repeat split|].
        now rewrite currentMetrics_written.
      * injection Hrun as _ <-.
        split; [reflexivity | now rewrite currentMetrics_sent, Hm].
    + injection Hrun as _ <-. split; [|now rewrite currentMetrics_sent].
      now destruct (currentMetrics w).
Qed.

(** A backend that is down leaves a fresh profile as it was; a PDF
    answer whose arc holds [null] leaves it with a sample of 90 recorded
    by a call that failed. *)
Lemma analyze_failure_effect_witness :
  snd (analyze silentBackend (VideoRequest nightClip) emptyWorld)
  = sent [PostVideoUpload nightClip] emptyWorld /\
  fst (analyze gappedBackend (PdfRequest reportPdf) emptyWorld) = Thrown TypeError /\
  snd (analyze gappedBackend (PdfRequest reportPdf) emptyWorld)
  = written (withSample (inject_Z (toPercent (binary64 0.90))) zeroMetrics)
      (sent [PostScriptUploadPdf reportPdf] emptyWorld) /\
  currentMetrics (snd (analyze gappedBackend (PdfRequest reportPdf) emptyWorld))
  = Some (withSample 90 zeroMetrics).
Proof.
  split; [|split; [|split]].
  - apply (analyze_failure_effect silentBackend (VideoRequest nightClip)
             emptyWorld _ AxiosError).
    reflexivity.
  - vm_compute. reflexivity.
  - apply (analyze_failure_effect gappedBackend (PdfRequest reportPdf)
             emptyWorld _ TypeError).
    vm_compute. reflexivity.
  - vm_compute. reflexivity.
Defined.

(** X5: while the JSON text [null] sits under the metrics key, every
    store event throws and leaves it there; so no analysis call returns,
    though its request was sent, and no chat call returns either,
    whatever the backend answers. *)
Theorem null_record_blocks (backend : Backend) (w : World) :
  localStorage w !! METRICS_KEY = Some TextNull ->
  (forall event : StoreEvent, recordEvent event w = (Thrown TypeError, w)) /\
  (forall request : AnalysisRequest,
      exists e : Exn,
        analyze backend request w = (Thrown e, sent (requestsOf request) w)) /\
  (forall input : SendMessageInput.t,
      exists (e : Exn) (w' : World),
        chatbotApi_sendMessage backend input w = (Thrown e, w') /\
        localStorage w' = localStorage w).
Proof.
  intros Hnull.
  assert (currentMetrics w = None) as Hm
    by now rewrite currentMetrics_lookup, Hnull.
  split; [|split].
  - intros [| |c]; simpl.
    + now apply incrementConversation_null.
    + now apply incrementVideos_null.
    + now apply addAnalysisConfidence_null.
  - intros request. destruct (isVideoKind request) eqn:Hkind.
    + rewrite (analyze_video_run _ _ _ Hkind), Hm.
      destruct (videoAnswer backend request w) as [data|]; eauto.
    + rewrite (analyze_script_run _ _ _ Hkind), Hm.
      destruct (scriptAnswer backend request w) as [data|]; eauto.
  - intros input.
    destruct (chatbotApi_sendMessage backend input w) as [[r|e] w'] eqn:Hrun.
    + apply sendMessage_returned_readable in Hrun as [m Hsome]. congruence.
    + exists e, w'. split; [reflexivity|].
      now apply (sendMessage_failed_metrics backend input w w' e).
Qed.

Lemma null_record_blocks_witness :
  exists e : Exn,
    analyze joyBackend (PdfRequest reportPdf)
      {| localStorage := {[ METRICS_KEY := TextNull ]}; requests := []; dispatched := [] |}
    = (Thrown e,
       sent [PostScriptUploadPdf reportPdf]
         {| localStorage := {[ METRICS_KEY := TextNull ]};
            requests := []; dispatched := [] |}).
Proof.
  destruct (null_record_blocks joyBackend
              {| localStorage := {[ METRICS_KEY := TextNull ]};
                 requests := []; dispatched := [] |}) as (_ & Hanalyze & _).
  - vm_compute. reflexivity.
  - apply (Hanalyze (PdfRequest reportPdf)).
Defined.

(** ** The normalised result *)

Lemma toPercent_range (x : Q) :
  (0 <= x)%Q -> (x <= 1)%Q -> 0 <= toPercent x <= 100.
Proof.
  intros H0 H1. unfold toPercent, num_mul, Math.round.
  destruct (binary64_between (x * 100) 0 100) as [Hlo Hhi]; try lia.
  { apply Qmult_le_0_compat; [exact H0 | discriminate]. }
  { change (inject_Z 100) with (1 * 100)%Q.
    apply Qmult_le_compat_r; [exact H1 | discriminate]. }
  split.
  - change 0 with (Qfloor 0). apply Qfloor_resp_le.
    apply Qle_trans with (binary64 (x * 100)); [exact Hlo|].
    rewrite <- (Qplus_0_r (binary64 (x * 100))) at 1. apply Qplus_le_r. discriminate.
  - change 100 with (Qfloor (100 + (1 # 2))). apply Qfloor_resp_le.
    apply Qplus_le_l. exact Hhi.
Qed.

Lemma moodToValue_scores (key : string) (n : Z) :
  moodToValue !! key = Some n -> In n moodScores.
Proof.
  unfold moodToValue, moodScores. intros H.
  repeat (apply lookup_insert_Some in H as [[_ <-] | [_ H]]; [simpl; tauto|]).
  apply lookup_singleton_Some in H as [_ <-]. simpl; tauto.
Qed.

(** X11: the mood series has one element per arc entry, and every element
    is one of the six scores of the table (50 being also the default) or
    a member inherited from [Object.prototype]; no other value is ever
    produced. *)
Theorem mapAudioArc_range (arc : list ArcEntry) :
  length (mapAudioArcToIntensitySeries arc) = length arc /\
  Forall (fun v =>
            (exists n : Z, v = Num n /\ In n moodScores) \/
            (exists key : string, v = Inherited key /\ key ∈ ObjectPrototype))
         (mapAudioArcToIntensitySeries arc).
Proof.
  split; [apply length_map|].
  unfold mapAudioArcToIntensitySeries. apply Forall_forall. intros v Hv.
  apply list_elem_of_In, in_map_iff in Hv as (entry & <- & _).
  unfold getProperty.
  destruct (moodToValue !! mood entry) as [n|] eqn:Hown; simpl.
  - left. exists n. split; [reflexivity|]. now apply (moodToValue_scores (mood entry)).
  - destruct (decide (mood entry ∈ ObjectPrototype)) as [Hproto|_]; simpl.
    + right. now exists (mood entry).
    + left. exists 50. split; [reflexivity|]. unfold moodScores; simpl; tauto.
Qed.

Lemma hasNullPoint_unit (arc : list ArcPoint) :
  Forall unitPoint arc -> hasNullPoint arc = false.
Proof.
  induction 1 as [|[|confidence] arc Hpoint _ IH]; [reflexivity | contradiction | exact IH].
Qed.

Lemma arcPercents_range (arc : list ArcPoint) :
  Forall unitPoint arc ->
  Forall (fun v => exists n : Z, v = Num n /\ 0 <= n <= 100) (arcPercents arc).
Proof.
  induction 1 as [|[|confidence] arc Hpoint _ IH]; [constructor | contradiction |].
  cbn [arcPercents map]. constructor; [|exact IH].
  eexists. split; [reflexivity|].
  destruct confidence as [c|]; simpl in *.
  - now apply toPercent_range.
  - vm_compute. split; discriminate.
Qed.

(** X10: when the backend keeps its contract (a confidence in [0, 1],
    arc elements that are objects with a confidence in [0, 1] or with
    none), the arc is mapped without an exception and without an effect,
    and the result of the script and PDF paths has a confidence in
    [0, 100], one arc value in [0, 100] per backend sample, and
    breakdown percentages in [5, 95]. *)
Theorem scriptResult_range (data : ScriptAnalysisResponse.t) (w : World) :
  (0 <= ScriptAnalysisResponse.confidence data)%Q ->
  (ScriptAnalysisResponse.confidence data <= 1)%Q ->
  Forall unitPoint (ScriptAnalysisResponse.emotional_arc data) ->
  exists emotionalArc : list JsValue,
    mapScriptArc (ScriptAnalysisResponse.emotional_arc data) w
    = (Returned emotionalArc, w) /\
    let result :=
      scriptResult data (toPercent (ScriptAnalysisResponse.confidence data))
        emotionalArc in
    0 <= AnalysisResult.confidence result <= 100 /\
    length (AnalysisResult.emotionalArc result)
      = length (ScriptAnalysisResponse.emotional_arc data) /\
    Forall (fun v => exists n : Z, v = Num n /\ 0 <= n <= 100)
      (AnalysisResult.emotionalArc result) /\
    Forall (fun e => 5 <= value e <= 95) (AnalysisResult.emotions result).
Proof.
  intros H0 H1 Harc.
  exists (arcPercents (ScriptAnalysisResponse.emotional_arc data)). split.
  { now rewrite mapScriptArc_run, (hasNullPoint_unit _ Harc). }
  simpl. split; [now apply toPercent_range|].
  split; [apply length_map|]. split; [now apply arcPercents_range|].
  pose proof (toPercent_range _ H0 H1) as Hc.
  set (c := toPercent (ScriptAnalysisResponse.confidence data)) in *. clearbody c.
  unfold buildEmotionBreakdown.
  pose proof (breakdownDominant_range (inject_Z c)) as Hd.
  rewrite breakdownSecondary_quotient.
  set (d := breakdownDominant (inject_Z c)) in *. clearbody d.
  unfold breakdownTertiary, Math.max.
  repeat constructor; simpl; Z.div_mod_to_equations; lia.
Qed.

Lemma scriptResult_range_witness :
  exists emotionalArc : list JsValue,
    mapScriptArc (ScriptAnalysisResponse.emotional_arc joyAnalysis) emptyWorld
    = (Returned emotionalArc, emptyWorld) /\
    0 <= AnalysisResult.confidence
           (scriptResult joyAnalysis
              (toPercent (ScriptAnalysisResponse.confidence joyAnalysis))
              emotionalArc) <= 100 /\
    length emotionalArc = 2%nat.
Proof.
  destruct (scriptResult_range joyAnalysis emptyWorld)
    as (emotionalArc & Hrun & Hc & Hlen & _).
  - vm_compute. discriminate.
  - vm_compute. discriminate.
  - repeat constructor; vm_compute; discriminate.
  - exists emotionalArc. split; [exact Hrun|]. split; [exact Hc | exact Hlen].
Defined.

(** X12: for an integer confidence, as the adapter always passes, the
    badge and the dominant bar agree: the intensity is "High" exactly when
    the dominant percentage is at least 80, and "Low" exactly when it is
    below 60. *)
Theorem intensity_matches_dominant (n : Z) :
  (inferIntensity (inject_Z n) = "High" <-> 80 <= breakdownDominant (inject_Z n)) /\
  (inferIntensity (inject_Z n) = "Low" <-> breakdownDominant (inject_Z n) < 60).
Proof.
  unfold inferIntensity, num_ge, breakdownDominant, Math.max, Math.min.
  rewrite round_inject_Z.
  destruct (Qle_bool 80 (inject_Z n)) eqn:H80; [|destruct (Qle_bool 60 (inject_Z n)) eqn:H60].
  - apply Qle_bool_iff in H80. change 80%Q with (inject_Z 80) in H80.
    rewrite <- Zle_Qle in H80.
    split; split; intros H; try discriminate H; try reflexivity; try lia; exfalso; lia.
  - apply Qle_bool_iff in H60. change 60%Q with (inject_Z 60) in H60.
    rewrite <- Zle_Qle in H60.
    assert (~ 80 <= n) as Hlt.
    { intros Hle. rewrite Zle_Qle in Hle. apply Qle_bool_iff in Hle.
      change (inject_Z 80) with 80%Q in Hle. congruence. }
    split; split; intros H; try discriminate H; try reflexivity; try lia; exfalso; lia.
  - assert (~ 60 <= n) as Hlt.
    { intros Hle. rewrite Zle_Qle in Hle. apply Qle_bool_iff in Hle.
      change (inject_Z 60) with 60%Q in Hle. congruence. }
    split; split; intros H; try discriminate H; try reflexivity; try lia; exfalso; lia.
Qed.

(** X13: in every breakdown "Residual" is at most "Secondary", "Secondary"
    is at most 48 and "Residual" at most 32; the entry named after the
    dominant mood is the largest exactly when its percentage is 38 or
    more: below that, "Secondary" is shown larger than the dominant
    mood. *)
Theorem breakdown_bucket_order (c : Q) :
  let dominant := breakdownDominant c in
  let secondary := breakdownSecondary dominant in
  let residual := breakdownTertiary dominant secondary in
  residual <= secondary /\
  (secondary <= dominant <-> 38 <= dominant) /\
  secondary <= 48 /\ residual <= 32.
Proof.
  cbv zeta. pose proof (breakdownDominant_range c) as Hd.
  rewrite breakdownSecondary_quotient.
  set (d := breakdownDominant c) in *. clearbody d.
  unfold breakdownTertiary, Math.max.
  Z.div_mod_to_equations; lia.
Qed.

(** X8: with a metrics record that reads as a record of numbers, an
    analysis call returns a result exactly when the backend answers its
    request, the text of a script is not blank, and the arc of a PDF or
    script answer holds no [null] and no [undefined]. *)
Theorem analyze_returns_iff (backend : Backend) (request : AnalysisRequest)
  (w : World) (m : StoredMetrics.t) :
  currentMetrics w = Some m ->
  (exists (result : AnalysisResult.t) (w' : World),
      analyze backend request w = (Returned result, w'))
  <-> backendAnswers backend request w = true /\
      requestsOf request <> [] /\
      arcBroken backend request w = false.
Proof.
  intros Hm. unfold arcBroken. destruct (isVideoKind request) eqn:Hkind.
  - rewrite (analyze_video_run _ _ _ Hkind), Hm.
    destruct request as [file|file|file|url]; try discriminate; simpl.
    + destruct (video_upload backend (requests w) file) as [data|]; split.
      * intros _. repeat split; try (apply bool_decide_eq_true; eauto); discriminate.
      * eauto.
      * intros (result & w' & Hrun). discriminate.
      * intros [Hanswer _].
        first [discriminate
              | apply bool_decide_eq_true in Hanswer as [data Hdata]; discriminate].
    + destruct (video_youtube backend (requests w) url) as [data|]; split.
      * intros _. repeat split; try (apply bool_decide_eq_true; eauto); discriminate.
      * eauto.
      * intros (result & w' & Hrun). discriminate.
      * intros [Hanswer _].
        first [discriminate
              | apply bool_decide_eq_true in Hanswer as [data Hdata]; discriminate].
  - rewrite (analyze_script_run _ _ _ Hkind), Hm.
    destruct request as [file|file|file|url]; try discriminate; simpl.
    + destruct (truthy (trim (file_text file))).
      * destruct (script_analyze backend (requests w) (file_text file)) as [data|];
          [destruct (hasNullPoint (ScriptAnalysisResponse.emotional_arc data))|];
          split.
        -- intros (result & w' & Hrun). discriminate.
        -- intros (_ & _ & Harc). discriminate.
        -- intros _. repeat split; try (apply bool_decide_eq_true; eauto); discriminate.
        -- eauto.
        -- intros (result & w' & Hrun). discriminate.
        -- intros [Hanswer _].
           first [discriminate
                 | apply bool_decide_eq_true in Hanswer as [data Hdata]; discriminate].
      * split.
        -- intros (result & w' & Hrun). discriminate.
        -- intros (_ & Hsent & _). congruence.
    + destruct (script_upload_pdf backend (requests w) file) as [data|]; simpl;
        [destruct (hasNullPoint
                     (ScriptAnalysisResponse.emotional_arc (PdfAnalysisResponse.base data)))|];
        split.
      * intros (result & w' & Hrun). discriminate.
      * intros (_ & _ & Harc). discriminate.
      * intros _. repeat split; try (apply bool_decide_eq_true; eauto); discriminate.
      * eauto.
      * intros (result & w' & Hrun). discriminate.
      * intros [Hanswer _].
        first [discriminate
              | apply bool_decide_eq_true in Hanswer as [data Hdata]; discriminate].
Qed.

(** On a fresh profile the PDF analysed by the backend of the scenarios
    is returned, and the one whose arc holds [null] is not. *)
Lemma analyze_returns_iff_witness :
  (exists (result : AnalysisResult.t) (w' : World),
      analyze joyBackend (PdfRequest reportPdf) emptyWorld = (Returned result, w')) /\
  ~ (exists (result : AnalysisResult.t) (w' : World),
        analyze gappedBackend (PdfRequest reportPdf) emptyWorld = (Returned result, w')).
Proof.
  split.
  - apply (analyze_returns_iff joyBackend (PdfRequest reportPdf) emptyWorld zeroMetrics
             eq_refl).
    vm_compute. repeat split. discriminate.
  - intros Hreturned.
    apply (analyze_returns_iff gappedBackend (PdfRequest reportPdf) emptyWorld
             zeroMetrics eq_refl) in Hreturned as (_ & _ & Harc).
    vm_compute in Harc. discriminate.
Defined.

(** X9: a video or YouTube response whose confidence is [null] counts as
    confidence 0: the result is "Low" with the breakdown 20 / 48 / 32, and
    a sample of 0 is added to the average. *)
Theorem video_without_confidence (backend : Backend) (request : AnalysisRequest)
  (w w' : World) (result : AnalysisResult.t) (data : VideoUploadResponse.t) :
  match request with
  | VideoRequest file => video_upload backend (requests w) file = Some data
  | YoutubeLinkRequest url => video_youtube backend (requests w) url = Some data
  | _ => False
  end ->
  VideoUploadResponse.confidence data = None ->
  analyze backend request w = (Returned result, w') ->
  AnalysisResult.confidence result = 0 /\
  AnalysisResult.intensity result = "Low" /\
  map value (AnalysisResult.emotions result) = [20; 48; 32] /\
  exists m : StoredMetrics.t,
    currentMetrics w = Some m /\
    currentMetrics w' = Some (withSample 0 (withVideo m)).
Proof.
  intros Hdata Hnull Hrun.
  assert (isVideoKind request = true /\ videoAnswer backend request w = Some data)
    as [Hkind Hanswer] by (destruct request; now try contradiction).
  rewrite (analyze_video_run _ _ _ Hkind), Hanswer, Hnull in Hrun.
  cbv zeta in Hrun.
  assert (toPercent (nullish None 0%Q) = 0) as Hzero by (vm_compute; reflexivity).
  rewrite Hzero in Hrun.
  destruct (currentMetrics w) as [m|]; [|discriminate].
  injection Hrun as <- <-.
  repeat split. exists m. split; [reflexivity|]. now rewrite currentMetrics_written.
Qed.

Lemma video_without_confidence_witness :
  AnalysisResult.confidence
    (videoResult mutedVideo 0) = 0 /\
  exists m : StoredMetrics.t,
    currentMetrics emptyWorld = Some m /\
    currentMetrics (snd (analyze mutedBackend (YoutubeLinkRequest "https://youtu.be/x")
                           emptyWorld))
    = Some (withSample 0 (withVideo m)).
Proof.
  destruct (video_without_confidence mutedBackend
              (YoutubeLinkRequest "https://youtu.be/x") emptyWorld
              (snd (analyze mutedBackend (YoutubeLinkRequest "https://youtu.be/x")
                      emptyWorld))
              (videoResult mutedVideo 0) mutedVideo)
    as (Hc & _ & _ & Hm); try reflexivity.
  split; [exact Hc | exact Hm].
Defined.

(** ** The chat entry point and the chat panel *)

(** X14: the requests of [chatbotApi.sendMessage], in order: in the
    general mode the chat body alone, an attached document being ignored;
    in the contextual mode the upload of the document, if there is one,
    followed by the query only if the upload succeeded. *)
Theorem sendMessage_requests_exact (backend : Backend) (input : SendMessageInput.t)
  (w : World) :
  requests (snd (chatbotApi_sendMessage backend input w))
  = requests w ++
    match SendMessageInput.mode input, SendMessageInput.pdfContext input with
    | ModePdf, Some file =>
        match upload_pdf backend (requests w) file with
        | Some _ => [PostUploadPdf file; PostRagQuery (ragRequest (chatPayload input))]
        | None => [PostUploadPdf file]
        end
    | ModePdf, None => [PostRagQuery (ragRequest (chatPayload input))]
    | ModeGeneral, _ => [PostChat (chatRequest (chatPayload input))]
    end.
Proof.
  unfold chatbotApi_sendMessage, bind at 1.
  destruct (SendMessageInput.mode input) eqn:Hmode;
    [|destruct (SendMessageInput.pdfContext input) as [file|] eqn:Hfile].
  - unfold ret at 1. rewrite sendChat_requests. unfold chatBody. simpl. rewrite Hmode.
    now destruct (SendMessageInput.pdfContext input).
  - unfold uploadChatPDF. rewrite apiClient_post_run.
    destruct (upload_pdf backend (requests w) file) as [[]|]; [|reflexivity].
    rewrite sendChat_requests. unfold chatBody. simpl. rewrite Hmode.
    now rewrite <- app_assoc.
  - unfold ret at 1. rewrite sendChat_requests. unfold chatBody. simpl. now rewrite Hmode.
Qed.


(** X16: [handleSendMessage] never throws.  A blank input sends nothing
    and changes nothing; otherwise the reply shown is the answer of
    [chatbotApi.sendMessage] when it returned, and the fixed apology when
    it threw, in which case storage is as before. *)
Theorem handleSendMessage_never_throws (backend : Backend) (st : ChatbotState) (w : World) :
  (trim (input st) = "" -> handleSendMessage backend st w = (Returned None, w)) /\
  (trim (input st) <> "" ->
   match chatbotApi_sendMessage backend (sendMessageInput st) w with
   | (Returned response, w') =>
       handleSendMessage backend st w
       = (Returned (Some (ChatResponse.response response)), w')
   | (Thrown _, w') =>
       handleSendMessage backend st w = (Returned (Some apology), w') /\
       localStorage w' = localStorage w
   end).
Proof.
  split.
  - intros Hblank. unfold handleSendMessage. now rewrite Hblank.
  - intros Hinput.
    assert (handleSendMessage backend st w =
            match chatbotApi_sendMessage backend (sendMessageInput st) w with
            | (Returned response, w') =>
                (Returned (Some (ChatResponse.response response)), w')
            | (Thrown _, w') => (Returned (Some apology), w')
            end) as Hrun.
    { unfold handleSendMessage.
      assert (negb (truthy (trim (input st))) = false) as ->.
      { destruct (trim (input st)); [congruence | reflexivity]. }
      unfold try_catch, bind, ret.
      now destruct (chatbotApi_sendMessage backend (sendMessageInput st) w)
        as [[response|e] w']. }
    rewrite Hrun.
    destruct (chatbotApi_sendMessage backend (sendMessageInput st) w)
      as [[response|e] w'] eqn:Hsend; [reflexivity|].
    split; [reflexivity|].
    now apply (sendMessage_failed_metrics backend (sendMessageInput st) w w' e).
Qed.


Lemma handleSendMessage_never_throws_witness :
  handleSendMessage silentBackend generalPanel emptyWorld
  = (Returned (Some apology),
     snd (chatbotApi_sendMessage silentBackend (sendMessageInput generalPanel)
            emptyWorld)).
Proof.
  destruct (handleSendMessage_never_throws silentBackend generalPanel emptyWorld)
    as [_ Hsend].
  assert (trim (input generalPanel) <> "") as Hinput by (vm_compute; discriminate).
  apply Hsend in Hinput. exact (proj1 Hinput).
Defined.

(** ** The analysis panel *)


(** [handleAnalyze] returns, with the panel it started from or with the
    panel of a finished analysis. *)
Lemma handleAnalyze_cases (backend : Backend) (st : EmotionPanel) (w : World) :
  exists (outcome : option AnalysisResult.t) (w' : World),
    handleAnalyze backend st w
    = (Returned (match selectedType st with
                 | None => st
                 | Some _ => analyzed outcome st
                 end), w').
Proof.
  unfold handleAnalyze.
  destruct (selectedType st) as [[type|]|]; [| |now exists None, w].
  - destruct (uploadedFile st) as [file|]; [|now exists None, w].
    unfold try_catch, bind, ret.
    destruct (emotionApi_analyze backend file type w) as [[r|e] w'].
    + now exists (Some r), w'.
    + now exists None, w'.
  - destruct (negb (truthy (trim (youtubeUrl st)))); [now exists None, w|].
    unfold try_catch, bind, ret.
    destruct (emotionApi_analyzeYouTube backend (trim (youtubeUrl st)) w)
      as [[r|e] w'].
    + now exists (Some r), w'.
    + now exists None, w'.
Qed.

Lemma panelStep_invariant (backend : Backend) (event : PanelEvent)
  (st : EmotionPanel) (w : World) :
  panelInvariant st -> panelInvariant (fst (panelStep backend event (st, w))).
Proof.
  intros [Hidle Hsel]. destruct event as [[file|] type| |url|]; simpl.
  - split; [exact Hidle | now exists file].
  - now split.
  - now split.
  - now split.
  - destruct (handleAnalyze_cases backend st w) as (outcome & w' & Hrun).
    rewrite Hrun. simpl.
    destruct (selectedType st) as [selected|] eqn:Hsome.
    + split; [reflexivity|]. simpl. now rewrite Hsome.
    + split; [exact Hidle|]. now rewrite Hsome.
Qed.

Lemma panelRun_invariant (backend : Backend) (events : list PanelEvent)
  (st : EmotionPanel) (w : World) :
  panelInvariant st -> panelInvariant (fst (panelRun backend events (st, w))).
Proof.
  revert st w. induction events as [|event later IH]; intros st w Hinv; [exact Hinv|].
  change (panelRun backend (event :: later) (st, w))
    with (panelRun backend later (panelStep backend event (st, w))).
  pose proof (panelStep_invariant backend event st w Hinv) as H.
  destruct (panelStep backend event (st, w)) as [st1 w1].
  now apply IH.
Qed.

(** X18: after any sequence of events on a freshly mounted panel, no
    analysis is marked as running; whenever a file type is selected a
    file is held, so the "Please upload a file first." branch is never
    taken; and whenever YouTube is selected no file is held, so
    [handleGenerateReport] returns at its guard: a YouTube analysis has
    no report. *)
Theorem panel_selection_invariant (backend : Backend) (events : list PanelEvent)
  (w : World) :
  let st := fst (panelRun backend events (initialPanel, w)) in
  isAnalyzing st = false /\
  (forall type : AnalyzeType,
      selectedType st = Some (SelFile type) -> is_Some (uploadedFile st)) /\
  (selectedType st = Some SelYoutube ->
   uploadedFile st = None /\ reportAvailable st = false).
Proof.
  cbv zeta.
  destruct (panelRun_invariant backend events initialPanel w) as [Hidle Hsel];
    [now split|].
  split; [exact Hidle|]. split.
  - intros type Htype. now rewrite Htype in Hsel.
  - intros Hyt. rewrite Hyt in Hsel. split; [exact Hsel|].
    unfold reportAvailable. rewrite Hsel. now destruct (result _).
Qed.

(** ** The report *)

Lemma stripExtension_cons (a : ascii) (rest : string) :
  stripExtension (String a rest)
  = if byte_in a [92]%N && matchesDotClass rest then EmptyString
    else String a (stripExtension rest).
Proof. reflexivity. Qed.

Lemma stripExtension_prefix (name : string) :
  exists removed : string, name = (stripExtension name ++ removed)%string.
Proof.
  induction name as [|a rest [removed IH]]; [now exists ""|].
  rewrite stripExtension_cons.
  destruct (byte_in a [92]%N && matchesDotClass rest).
  - now exists (String a rest).
  - exists removed.
    change (String a rest = String a (stripExtension rest ++ removed)%string).
    f_equal. exact IH.
Qed.

Lemma stripExtension_unchanged (name : string) :
  noBackslash name = true -> stripExtension name = name.
Proof.
  induction name as [|a rest IH]; [reflexivity|].
  intros H. rewrite stripExtension_cons.
  change (negb (byte_in a [92]%N) && noBackslash rest = true) in H.
  apply andb_true_iff in H as [Ha Hrest].
  apply negb_true_iff in Ha. rewrite Ha. simpl.
  f_equal. now apply IH.
Qed.

(** X19: the name the report is saved under keeps the extension of the
    uploaded file: the pattern meant to strip it asks for a backslash, so
    a file name without one is used whole; in any case only a suffix of
    the name is ever removed. *)
Theorem report_file_name (file : File) (today : string) :
  (exists removed : string,
      file_name file = (stripExtension (file_name file) ++ removed)%string) /\
  (noBackslash (file_name file) = true ->
   reportFileName file today
   = ("CogniFlow_Analysis_" ++ file_name file ++ "_" ++ today ++ ".pdf")%string).
Proof.
  split; [apply stripExtension_prefix|].
  intros H. unfold reportFileName. now rewrite (stripExtension_unchanged _ H).
Qed.

Lemma report_file_name_witness :
  reportFileName reportPdf "2026-01-31" = "CogniFlow_Analysis_report.pdf_2026-01-31.pdf".
Proof.
  apply (proj2 (report_file_name reportPdf "2026-01-31")). vm_compute. reflexivity.
Defined.

Example stripExtension_backslash :
  map stripExtension ["clips\scene"; "clips\a"; "clips\take.2"; "a\b\cde"]
  = ["clips"; "clips\a"; "clips\take.2"; "a"].
Proof. vm_compute. reflexivity. Qed.

Lemma inferIntensity_integer (n : Z) :
  inferIntensity (inject_Z n)
  = if 80 <=? n then "High" else if 60 <=? n then "Medium" else "Low".
Proof.
  unfold inferIntensity, num_ge.
  assert (forall k : Z, Qle_bool (inject_Z k) (inject_Z n) = (k <=? n)) as Hle.
  { intros k. destruct (Z.leb_spec k n) as [H|H].
    - apply Qle_bool_iff. now rewrite <- Zle_Qle.
    - destruct (Qle_bool (inject_Z k) (inject_Z n)) eqn:E; [|reflexivity].
      apply Qle_bool_iff in E. rewrite <- Zle_Qle in E. lia. }
  change 80%Q with (inject_Z 80). change 60%Q with (inject_Z 60).
  now rewrite !Hle.
Qed.

(** X20: in the report of an analysis with integer confidence, the
    "Secondary" and "Residual" rows are never rated "High"; the row of the
    dominant mood is rated "High" exactly when the intensity is not "Low";
    the confidence is called "highly reliable" only with a "High"
    intensity, and a "Low" intensity always comes with "cautious
    interpretation needed". *)
Theorem report_labels (n : Z) :
  let dominant := breakdownDominant (inject_Z n) in
  let secondary := breakdownSecondary dominant in
  let residual := breakdownTertiary dominant secondary in
  emotionLevel secondary <> "High" /\
  emotionLevel residual <> "High" /\
  (emotionLevel dominant = "High" <-> inferIntensity (inject_Z n) <> "Low") /\
  (reliability n = "highly reliable" -> inferIntensity (inject_Z n) = "High") /\
  (inferIntensity (inject_Z n) = "Low" ->
   reliability n = "cautious interpretation needed").
Proof.
  cbv zeta. rewrite inferIntensity_integer, breakdownSecondary_quotient.
  unfold emotionLevel, reliability, breakdownTertiary, breakdownDominant,
    Math.max, Math.min.
  rewrite round_inject_Z.
  set (d := Z.max 20 (Z.min 95 n)).
  set (s := Z.max 5 ((6 * (100 - d) + 5) / 10)).
  assert (s <= 48 /\ Z.max 5 (100 - d - s) <= 32) as [Hs Ht].
  { subst s d. Z.div_mod_to_equations; lia. }
  repeat split.
  - destruct (Z.leb_spec 60 s); [lia|]. now destruct (30 <=? s).
  - destruct (Z.leb_spec 60 (Z.max 5 (100 - d - s))); [lia|]. now destruct (30 <=? _).
  - intros Hlevel. destruct (Z.leb_spec 60 d) as [Hd|Hd].
    + destruct (Z.leb_spec 80 n); [discriminate|].
      destruct (Z.leb_spec 60 n); [discriminate | subst d; lia].
    + now destruct (30 <=? d).
  - intros Hint. destruct (Z.leb_spec 60 d) as [Hd|Hd]; [reflexivity|].
    exfalso. apply Hint.
    destruct (Z.leb_spec 80 n); [subst d; lia|].
    destruct (Z.leb_spec 60 n); [subst d; lia | reflexivity].
  - intros Hrel. destruct (Z.ltb_spec 85 n) as [H|H].
    + destruct (Z.leb_spec 80 n); [reflexivity | lia].
    + now destruct (70 <? n).
  - intros Hint. destruct (Z.leb_spec 80 n); [discriminate|].
    destruct (Z.leb_spec 60 n); [discriminate|].
    destruct (Z.ltb_spec 85 n); [lia|]. destruct (Z.ltb_spec 70 n); [lia|reflexivity].
Qed.

(** X21: the trend named in the report depends on the first and the last
    sample alone: an empty arc and a one-sample arc are "relatively
    stable", an arc is declining exactly when its last sample is below
    its first, and exactly when the reversed arc is ascending. *)
Theorem arcTrend_ends (a b : Z) (mid : list Z) :
  arcTrend [] = "relatively stable emotions" /\
  arcTrend [a] = "relatively stable emotions" /\
  arcTrend (a :: mid ++ [b]) =
    (if b <? a then "a declining trend"
     else if a <? b then "an ascending trend"
     else "relatively stable emotions") /\
  (arcTrend (a :: mid ++ [b]) = "a declining trend"
   <-> arcTrend (rev (a :: mid ++ [b])) = "an ascending trend").
Proof.
  assert (forall x y l, arcTrend (x :: l ++ [y]) =
            (if y <? x then "a declining trend"
             else if x <? y then "an ascending trend"
             else "relatively stable emotions")) as Hends.
  { intros x y l. unfold arcTrend.
    change (last (x :: l ++ [y])) with (last ((x :: l) ++ [y])).
    rewrite last_snoc. reflexivity. }
  split; [reflexivity|]. split.
  { unfold arcTrend; simpl. now rewrite Z.ltb_irrefl. }
  split; [apply Hends|].
  rewrite Hends.
  assert (rev (a :: mid ++ [b]) = b :: rev mid ++ [a]) as ->.
  { simpl. rewrite rev_app_distr. reflexivity. }
  rewrite Hends.
  destruct (Z.ltb_spec b a), (Z.ltb_spec a b); split; intros Htrend;
    try reflexivity; try discriminate; lia.
Qed.

Lemma handleAnalyze_outcome_example :
  handleAnalyze joyBackend
    (setYoutubeUrl "  https://youtu.be/x " (selectYoutube initialPanel)) emptyWorld
  = (Returned
       (analyzed (Some (videoResult tenseVideo 72))
          (setYoutubeUrl "  https://youtu.be/x " (selectYoutube initialPanel))),
     snd (analyze joyBackend (YoutubeLinkRequest "https://youtu.be/x") emptyWorld)).
Proof. vm_compute. reflexivity. Qed.

(** ** The session *)

Lemma truthy_nonempty (s : string) : truthy s = true <-> s <> "".
Proof. destruct s; simpl; split; congruence. Qed.

Lemma orElse_nonempty (x : option string) (fallback : string) :
  fallback <> "" -> orElse x fallback <> "".
Proof.
  intros Hf. unfold orElse. destruct x as [text|]; [|exact Hf].
  destruct (truthy text) eqn:Ht; [now apply truthy_nonempty | exact Hf].
Qed.

Lemma getAuthToken_set (token : string) (store : gmap string string) :
  getAuthToken (setAuthToken token store)
  = if truthy token then token else getAuthToken store.
Proof.
  unfold setAuthToken, getAuthToken.
  destruct (truthy token) eqn:Ht; simpl; [|reflexivity].
  rewrite lookup_insert_eq. simpl. now rewrite Ht.
Qed.

Lemma getAuthToken_clear (store : gmap string string) :
  getAuthToken (clearAuthToken store) = "".
Proof. unfold getAuthToken, clearAuthToken. now rewrite lookup_delete_eq. Qed.

(** X22: the token store.  A non-empty token that is set is the token
    read back, and is sent as [Bearer] header; setting the empty token
    changes nothing; after [clearAuthToken] the token reads as empty and
    no [Authorization] header is sent; none of this touches another
    storage key. *)
Theorem auth_token_storage (token : string) (store : gmap string string) :
  (token <> "" -> getAuthToken (setAuthToken token store) = token) /\
  setAuthToken "" store = store /\
  getAuthToken (clearAuthToken store) = "" /\
  authHeaders (clearAuthToken store) = None /\
  (token <> "" ->
   authHeaders (setAuthToken token store) = Some ("Bearer " ++ token)%string) /\
  (forall key : string, key <> AUTH_TOKEN_KEY ->
     setAuthToken token store !! key = store !! key /\
     clearAuthToken store !! key = store !! key).
Proof.
  repeat split.
  - intros Ht. rewrite getAuthToken_set.
    now rewrite (proj2 (truthy_nonempty token) Ht).
  - apply getAuthToken_clear.
  - unfold authHeaders. now rewrite getAuthToken_clear.
  - intros Ht. unfold authHeaders. rewrite getAuthToken_set.
    now rewrite (proj2 (truthy_nonempty token) Ht), (proj2 (truthy_nonempty token) Ht).
  - unfold setAuthToken. destruct (negb (truthy token)); [reflexivity|].
    now rewrite lookup_insert_ne.
  - unfold clearAuthToken. now rewrite lookup_delete_ne.
Qed.

(** X23: [handleAuthSubmit] rejects a form whose email or password is
    blank, and a signup whose trimmed name has fewer than two UTF-16 code
    units: the matching message is shown, nothing is sent and the session
    is as before. *)
Theorem handleAuthSubmit_rejects (backend : AuthBackend) (app : App) (session : Session) :
  (trim (loginEmail app) = "" \/ trim (loginPassword app) = "" ->
   handleAuthSubmit backend app session
   = (withAuthError "Email and password are required." app, session)) /\
  (trim (loginEmail app) <> "" -> trim (loginPassword app) <> "" ->
   authMode app = AuthSignup ->
   (utf16Length (trim (loginName app)) < 2)%nat ->
   handleAuthSubmit backend app session
   = (withAuthError "Full name must be at least 2 characters." app, session)).
Proof.
  unfold handleAuthSubmit, authFormError. split.
  - intros Hblank.
    assert (negb (truthy (trim (loginEmail app)))
            || negb (truthy (trim (loginPassword app))) = true) as ->; [|reflexivity].
    destruct Hblank as [-> | ->]; [reflexivity|]. apply orb_true_r.
  - intros He Hp Hmode Hname.
    apply truthy_nonempty in He, Hp. rewrite He, Hp, Hmode. simpl.
    now rewrite (proj2 (Nat.ltb_lt _ _) Hname).
Qed.

(** X24: an accepted form sends exactly one request and ends with
    [isAuthLoading] false.  On success the user is shown, the password
    field is emptied, the dialog is closed, and the token read afterwards
    is the new one, unless the new one is empty, in which case the token
    stored before stays.  On failure a non-empty message is shown (the
    detail of the backend when it gives one), and the user, the
    password, the dialog and storage are as before. *)
Theorem handleAuthSubmit_accepted (backend : AuthBackend) (app : App) (session : Session) :
  authFormError app = None ->
  let (app', session') := handleAuthSubmit backend app session in
  authRequests session' = authRequests session ++ [authRequest app] /\
  isAuthLoading app' = false /\
  match authAnswer backend app with
  | inl response =>
      userName app' = AuthResponse.full_name response /\
      userEmail app' = AuthResponse.email response /\
      loginPassword app' = "" /\ authError app' = "" /\ isLoginOpen app' = false /\
      getAuthToken (store session')
      = (if truthy (AuthResponse.token response)
         then AuthResponse.token response
         else getAuthToken (store session))
  | inr detail =>
      authError app' <> "" /\
      (forall message : string,
          detail = Some message -> message <> "" -> authError app' = message) /\
      userName app' = userName app /\ loginPassword app' = loginPassword app /\
      isLoginOpen app' = isLoginOpen app /\
      store session' = store session
  end.
Proof.
  intros Hform. unfold handleAuthSubmit. rewrite Hform.
  destruct (authAnswer backend app) as [response|detail]; simpl.
  - repeat split. apply getAuthToken_set.
  - repeat split.
    + now apply orElse_nonempty.
    + intros message -> Hmessage. simpl.
      now rewrite (proj2 (truthy_nonempty message) Hmessage).
Qed.

(** X25: a successful login with a non-empty token followed by a logout
    sends the logout request with the header [Bearer] plus exactly that
    token; afterwards, whatever the backend said to the logout, no token
    is stored, no user is shown, the profile is closed, and the next
    mount sends nothing. *)
Theorem login_then_logout (backend : AuthBackend) (app : App) (session : Session)
  (response : AuthResponse.t) :
  authFormError app = None ->
  authAnswer backend app = inl response ->
  AuthResponse.token response <> "" ->
  let (app1, session1) := handleAuthSubmit backend app session in
  let (app2, session2) := handleLogout backend app1 session1 in
  authRequests session2
  = authRequests session
    ++ [authRequest app;
        PostLogout (Some ("Bearer " ++ AuthResponse.token response)%string)] /\
  getAuthToken (store session2) = "" /\
  userName app2 = "" /\ userEmail app2 = "" /\ isProfileOpen app2 = false /\
  snd (mountEffect backend app2 session2)
  = {| store := store session2; authRequests := authRequests session2 |}.
Proof.
  intros Hform Hanswer Htoken. unfold handleAuthSubmit. rewrite Hform, Hanswer.
  unfold handleLogout. cbn [store authRequests].
  assert (authHeaders (setAuthToken (AuthResponse.token response) (store session))
          = Some ("Bearer " ++ AuthResponse.token response)%string) as ->.
  { unfold authHeaders. rewrite getAuthToken_set.
    now rewrite !(proj2 (truthy_nonempty _) Htoken). }
  repeat split.
  - now rewrite <- app_assoc.
  - apply getAuthToken_clear.
  - unfold mountEffect. cbn [store authRequests].
    now rewrite getAuthToken_clear.
Qed.

(** X26: when [App] mounts, the API base it shows is never empty; with
    no token stored it sends nothing and leaves the session alone; with
    a token it sends one [GET /auth/me] carrying that token, shows the
    user on success, and on failure forgets the user and removes the
    token. *)
Theorem mountEffect_session (backend : AuthBackend) (app : App) (session : Session) :
  let (app', session') := mountEffect backend app session in
  apiBaseUrl app' <> "" /\
  (getAuthToken (store session) = "" ->
   session' = session /\ userName app' = userName app) /\
  (getAuthToken (store session) <> "" ->
   authRequests session'
   = authRequests session
     ++ [GetMe (Some ("Bearer " ++ getAuthToken (store session))%string)] /\
   match auth_me backend (Some ("Bearer " ++ getAuthToken (store session))%string) with
   | Some user =>
       userName app' = AuthUser.full_name user /\
       userEmail app' = AuthUser.email user /\
       store session' = store session
   | None =>
       userName app' = "" /\ userEmail app' = "" /\
       getAuthToken (store session') = ""
   end).
Proof.
  unfold mountEffect.
  assert (orElse (store session !! API_BASE_KEY) DEFAULT_API_BASE <> "") as Hbase
    by (apply orElse_nonempty; discriminate).
  destruct (truthy (getAuthToken (store session))) eqn:Ht; simpl.
  - assert (authHeaders (store session)
            = Some ("Bearer " ++ getAuthToken (store session))%string) as ->.
    { unfold authHeaders. now rewrite Ht. }
    apply truthy_nonempty in Ht.
    destruct (auth_me backend _) as [user|]; simpl.
    + split; [exact Hbase|]. split; [congruence|]. intros _. repeat split.
    + split; [exact Hbase|]. split; [congruence|]. intros _. repeat split.
      apply getAuthToken_clear.
  - split; [exact Hbase|]. split.
    + intros _. split; [now destruct session | reflexivity].
    + intros Hne. apply truthy_nonempty in Hne. congruence.
Qed.

(** X27: [saveSettings] stores the trimmed URL, or the default when the
    URL is blank, and so never the empty string; the next mount shows
    exactly what was stored; the token is not touched and the settings
    dialog is closed. *)
Theorem settings_round_trip (backend : AuthBackend) (app app0 : App) (session : Session) :
  let saved := snd (saveSettings app session) in
  store saved !! API_BASE_KEY
  = Some (if truthy (trim (apiBaseUrl app)) then trim (apiBaseUrl app)
          else DEFAULT_API_BASE) /\
  store saved !! API_BASE_KEY <> Some "" /\
  apiBaseUrl (fst (mountEffect backend app0 saved))
  = (if truthy (trim (apiBaseUrl app)) then trim (apiBaseUrl app)
     else DEFAULT_API_BASE) /\
  getAuthToken (store saved) = getAuthToken (store session) /\
  isSettingsOpen (fst (saveSettings app session)) = false.
Proof.
  cbv zeta. unfold saveSettings. cbn [fst snd store].
  rewrite lookup_insert_eq. unfold orElse at 1 2.
  assert ((if truthy (trim (apiBaseUrl app)) then trim (apiBaseUrl app)
           else DEFAULT_API_BASE) <> "") as Hne.
  { destruct (truthy (trim (apiBaseUrl app))) eqn:Ht;
      [now apply truthy_nonempty | discriminate]. }
  repeat split.
  - congruence.
  - unfold mountEffect. cbn [store].
    rewrite lookup_insert_eq.
    set (url := orElse (Some (trim (apiBaseUrl app))) DEFAULT_API_BASE).
    assert (orElse (Some url) DEFAULT_API_BASE = url) as Hurl.
    { unfold orElse at 1. subst url. unfold orElse.
      now rewrite (proj2 (truthy_nonempty _) Hne). }
    rewrite Hurl.
    destruct (negb (truthy (getAuthToken _))); [reflexivity|].
    now destruct (auth_me backend _).
  - unfold getAuthToken. now rewrite lookup_insert_ne.
Qed.

Lemma handleAuthSubmit_accepted_witness :
  authRequests (snd (handleAuthSubmit adaBackend loginForm emptySession))
  = [PostLogin "ada@example.org" "pw "].
Proof.
  pose proof (handleAuthSubmit_accepted adaBackend loginForm emptySession eq_refl) as H.
  destruct (handleAuthSubmit adaBackend loginForm emptySession) as [app' session'].
  exact (proj1 H).
Defined.

Lemma login_then_logout_witness :
  authRequests
    (snd (handleLogout adaBackend
            (fst (handleAuthSubmit adaBackend loginForm emptySession))
            (snd (handleAuthSubmit adaBackend loginForm emptySession))))
  = [PostLogin "ada@example.org" "pw "; PostLogout (Some "Bearer tok-1")].
Proof.
  pose proof (login_then_logout adaBackend loginForm emptySession
                {| AuthResponse.token := "tok-1";
                   AuthResponse.full_name := "Ada Lovelace";
                   AuthResponse.email := "ada@example.org" |}
                eq_refl eq_refl) as H.
  destruct (handleAuthSubmit adaBackend loginForm emptySession) as [app1 session1].
  cbn [fst snd].
  destruct (handleLogout adaBackend app1 session1) as [app2 session2].
  assert (AuthResponse.token
            {| AuthResponse.token := "tok-1";
               AuthResponse.full_name := "Ada Lovelace";
               AuthResponse.email := "ada@example.org" |} <> "") as Htoken
    by discriminate.
  exact (proj1 (H Htoken)).
Defined.
